(** * YOLO detection pipeline: frame cadence, per-frame tallies, running
    maxima, the MongoDB event store and its query tool.

    A shallow embedding of [main.py], [database.py], [queary_db.py] and
    the parsing of [TARGET_CLASSES] in [config.py].

    Conventions of the embedding.
    - Python [int] frame counters are [Z]; tallies, which only ever grow
      from [0] by [+= 1], are [nat].
    - Python [float] values are the rationals they denote ([Qc]);
      comparison, [min] and [max] are exact on them. Of the arithmetic on
      floats only [round] is embedded, as the decimal rounding of the
      value, without the conversion of the result back to binary, on
      which no statement rests. The mean that the database server
      computes in [$avg] is an input.
    - [str] values are [string]; the built-ins whose result depends on
      the interpreter's Unicode tables ([str.strip], [str.lower],
      [int(str)]) are inputs.
    - [defaultdict(int)] and [dict] keyed by class name are
      [gmap string nat]; reading a missing key of a [defaultdict(int)]
      yields [0].
    - [datetime] values are instants counted in milliseconds from the
      epoch, the resolution at which the store keeps them.
    - Everything the program receives from outside (decoded frames with
      the detector's boxes, the clock, the key pressed in the preview
      window, whether the database server answers a call, the order in
      which the server brings out rows that the pipeline does not order)
      is an explicit input; [print] appends a structured line to the
      detector's output. *)

From Stdlib Require Import ZArith QArith Qcanon Ascii String Lia.
From stdpp Require Import base numbers option list strings gmap sorting.

Local Open Scope Z_scope.

(** ** Values *)

Definition float := Qc.
Definition datetime := Z.

(** ** config.py *)

Record Config := {
  MODEL_NAME : string;
  VIDEO_SOURCE : string;
  FRAME_SKIP : Z;
  CONFIDENCE_THRESHOLD : float;
  TARGET_CLASSES : list string;
  DISPLAY_VIDEO : bool;
  ENABLE_MONGODB : bool;
  MONGO_DB_NAME : string;
  MONGO_COLLECTION_NAME : string
}.

(** ** The detector's output for one frame *)

(** One entry of [result.boxes]: [box.cls[0]], [box.conf[0]], [box.xyxy[0]]. *)
Record Box := {
  cls : nat;
  conf : float;
  xyxy : float * float * float * float
}.

(** The loaded model; only its class-name table [names] is read. *)
Record YOLO := { names : nat → string }.

(** ** Documents *)

Record BoundingBox := { x1 : float; y1 : float; x2 : float; y2 : float }.

Record Detection := {
  class_name : string;
  confidence : float;
  bounding_box : BoundingBox
}.

Record ModelInfo := { model_name : string; confidence_threshold : float }.

Record Document := {
  timestamp : datetime;
  video_source : string;
  frame_number : Z;
  processed_frame_number : Z;
  total_objects_detected : nat;
  object_counts : gmap string nat;
  detections : list Detection;
  model_info : ModelInfo
}.

(** ** Python's [round(x, ndigits)] on rationals: nearest multiple of
    [10^-ndigits], ties to the even one. *)

Definition round_half_even (q : Qc) : Z :=
  let n := Qnum (this q) in
  let d := Zpos (Qden (this q)) in
  let fl := n / d in
  let r2 := 2 * (n mod d) in
  if r2 <? d then fl
  else if d <? r2 then fl + 1
  else if Z.even fl then fl else fl + 1.

Definition round (x : float) (ndigits : nat) : float :=
  let scale := 10 ^ Z.of_nat ndigits in
  Q2Qc (inject_Z (round_half_even (x * Q2Qc (inject_Z scale))%Qc) / inject_Z scale)%Q.

(** ** main.py: building one frame's tallies and detection list

    Lines 68-105 of [process_video]: the two nested [for] loops over
    [results] and [result.boxes]. Drawing on the frame is rendering and
    leaves no trace in the state. *)

Definition detection_data (model : YOLO) (box : Box) : Detection :=
  let '(bx1, by1, bx2, by2) := xyxy box in
  {| class_name := names model (cls box);
     confidence := round (conf box) 4;
     bounding_box := {| x1 := round bx1 2; y1 := round by1 2;
                        x2 := round bx2 2; y2 := round by2 2 |} |}.

(** [self.config.TARGET_CLASSES and class_name not in self.config.TARGET_CLASSES] *)
Definition filtered_out (config : Config) (name : string) : bool :=
  bool_decide (TARGET_CLASSES config ≠ []) && bool_decide (name ∉ TARGET_CLASSES config).

Definition box_iteration (config : Config) (model : YOLO)
    (acc : gmap string nat * list Detection) (box : Box)
    : gmap string nat * list Detection :=
  let '(frame_counts, detections_list) := acc in
  let name := names model (cls box) in
  if filtered_out config name then acc
  else (<[name := S (frame_counts !!! name)]> frame_counts,
        detections_list ++ [detection_data model box]).

Definition collect_detections (config : Config) (model : YOLO)
    (results : list (list Box)) : gmap string nat * list Detection :=
  foldl (box_iteration config model) (∅, []) (concat results).

(** Lines 107-109: [for cls_name, count in frame_counts.items():
    self.class_counts[cls_name] = max(self.class_counts[cls_name], count)]. *)
Definition update_total_counts (class_counts frame_counts : gmap string nat)
    : gmap string nat :=
  map_fold (λ cls_name count acc, <[cls_name := Nat.max (acc !!! cls_name) count]> acc)
           class_counts frame_counts.

(** ** Exceptions and printed lines *)

Inductive Exception :=
| PyException (message : string)
| OverflowError
| ZeroDivisionError
| ValueError.

Definition Result (A : Type) : Type := Exception + A.

(** One constructor per [print] of the two programs; the fields are the
    values interpolated into the line. Frame rate, total frame count and
    elapsed time are read from the capture device and the wall clock and
    are left out of the lines that show them. *)
Inductive Output :=
| LoadingModel (name : string)
| MongoConnected (db_name collection_name : string)
| MongoConnectionFailed (e : Exception)
| ContinuingWithoutDatabase
| IndexWarning
| CannotOpenSource (source : string)
| VideoHeader (source : string) (frame_skip : Z) (threshold : float)
| MongoInsertError (e : Exception)
| FrameCounts (frame processed : Z) (counts : list (string * nat))
| StoppingDetection
| DetectionSummary (frames processed : Z) (counts : list (string * nat))
| CleaningUp (days : Z)
| DeletedRecords (n : nat)
| CleanupCancelled
| ErrorLine (e : Exception).

(** ** database.py

    [MongoDB] stands for the handler together with the server behind it:
    [collection] holds the stored documents in insertion order, and
    [faults] scripts the server's availability, one entry per driver call
    (the call raises when its entry is [true]; an exhausted script means
    the server answers). *)

Record MongoDB := {
  collection : list Document;
  faults : list bool
}.

Definition driver_call (db : MongoDB) : bool * MongoDB :=
  match faults db with
  | [] => (false, db)
  | failed :: rest => (failed, {| collection := collection db; faults := rest |})
  end.

(** The four [create_index] calls inside one [try]; the first one that
    raises ends the block with a warning. *)
Fixpoint create_index_calls (n : nat) (db : MongoDB) : MongoDB * list Output :=
  match n with
  | O => (db, [])
  | S n' =>
      let '(failed, db') := driver_call db in
      if failed then (db', [IndexWarning]) else create_index_calls n' db'
  end.

Definition _create_indexes (db : MongoDB) : MongoDB * list Output :=
  create_index_calls 4 db.

(** [MongoDB()]: [_connect] pings the server, then creates the indexes.
    A server that does not answer the ping is a [ConnectionFailure]. *)
Definition _connect (server : MongoDB) : MongoDB * list Output * Result unit :=
  let '(failed, db) := driver_call server in
  if failed then (db, [], inl (PyException "Failed to connect to MongoDB"))
  else let '(db', out) := _create_indexes db in (db', out, inr ()).

Definition insert_detection (db : MongoDB) (document : Document)
    : MongoDB * Result unit :=
  let '(failed, db') := driver_call db in
  if failed then (db', inl (PyException "Failed to insert document"))
  else ({| collection := collection db' ++ [document]; faults := faults db' |}, inr ()).

(** *** [get_object_statistics] *)

Record ClassStatistics := {
  _id : string;
  total_count : nat;
  avg_confidence : float;
  max_confidence : float;
  min_confidence : float
}.

(** Truth value of an optional string argument: [None] and [''] are false. *)
Definition given (video_source : option string) : option string :=
  match video_source with
  | Some s => if decide (s = "") then None else Some s
  | None => None
  end.

(** [{"$match": {"video_source": video_source}}] *)
Definition match_stage (source : string) (docs : list Document) : list Document :=
  filter (λ d, video_source d = source) docs.

(** [{"$unwind": "$detections"}]: one record per array element; a document
    with an empty array yields none. Only the element is read afterwards. *)
Definition unwind_stage (docs : list Document) : list Detection :=
  concat (detections <$> docs).

Definition Qc_max (a b : float) : float := if decide (a ≤ b)%Qc then b else a.
Definition Qc_min (a b : float) : float := if decide (a ≤ b)%Qc then a else b.

Definition maximum (xs : list float) : float :=
  match xs with [] => 0%Qc | x :: rest => foldl Qc_max x rest end.
Definition minimum (xs : list float) : float :=
  match xs with [] => 0%Qc | x :: rest => foldl Qc_min x rest end.

Definition group_members (name : string) (ds : list Detection) : list float :=
  confidence <$> filter (λ d, class_name d = name) ds.

(** What the pipeline leaves to the server that runs it. [$avg] is
    computed by the server in floating-point arithmetic: [avg] is the
    number it returns for the confidences of a group. Neither [$group]
    nor [$sort] says in which order rows of equal [total_count] come out:
    [key_rank] is the place the server gives a class name among the names
    tied with it, and only where the server itself ranks two names alike
    does the embedding fall back on the order of first occurrence. *)
Record Engine := {
  avg : list float → float;
  key_rank : string → nat
}.

(** [{"$group": {"_id": "$detections.class_name", "total_count": {"$sum": 1},
    "avg_confidence": {"$avg": ..}, "max_confidence": {"$max": ..},
    "min_confidence": {"$min": ..}}}]: one row per distinct class name. *)
Definition group_row (engine : Engine) (ds : list Detection) (name : string)
    : ClassStatistics :=
  let members := group_members name ds in
  {| _id := name;
     total_count := length members;
     avg_confidence := avg engine members;
     max_confidence := maximum members;
     min_confidence := minimum members |}.

Definition group_stage (engine : Engine) (ds : list Detection) : list ClassStatistics :=
  group_row engine ds <$> remove_dups (class_name <$> ds).

(** [{"$sort": {"total_count": -1}}]: the only sort key is [total_count];
    among rows of equal count the order is the server's. *)
Definition count_desc (r1 r2 : ClassStatistics) : Prop :=
  (total_count r2 ≤ total_count r1)%nat.

Definition count_desc_then_rank (engine : Engine) (r1 r2 : ClassStatistics) : Prop :=
  (total_count r2 < total_count r1)%nat ∨
  (total_count r1 = total_count r2 ∧
   (key_rank engine (_id r1) ≤ key_rank engine (_id r2))%nat).

#[global] Instance count_desc_dec : RelDecision count_desc.
Proof. intros r1 r2. unfold count_desc. apply _. Defined.

#[global] Instance count_desc_transitive : Transitive count_desc.
Proof. intros r1 r2 r3. unfold count_desc. lia. Qed.

#[global] Instance count_desc_then_rank_dec (engine : Engine) :
  RelDecision (count_desc_then_rank engine).
Proof. intros r1 r2. unfold count_desc_then_rank. apply _. Defined.

#[global] Instance count_desc_then_rank_total (engine : Engine) :
  Total (count_desc_then_rank engine).
Proof. intros r1 r2. unfold count_desc_then_rank. lia. Qed.

#[global] Instance count_desc_then_rank_transitive (engine : Engine) :
  Transitive (count_desc_then_rank engine).
Proof. intros r1 r2 r3. unfold count_desc_then_rank. lia. Qed.

Definition sort_stage (engine : Engine) (rows : list ClassStatistics)
    : list ClassStatistics :=
  merge_sort (count_desc_then_rank engine) rows.

(** The pipeline starts with the match stage only when a source is given. *)
Definition select_events (video_source : option string) (docs : list Document)
    : list Document :=
  match given video_source with
  | Some source => match_stage source docs
  | None => docs
  end.

Definition aggregate (engine : Engine) (video_source : option string)
    (docs : list Document) : list ClassStatistics :=
  sort_stage engine
    (group_stage engine (unwind_stage (select_events video_source docs))).

Definition get_object_statistics (db : MongoDB) (engine : Engine)
    (video_source : option string) : MongoDB * Result (list ClassStatistics) :=
  let '(failed, db') := driver_call db in
  if failed then (db', inl (PyException "Failed to get statistics"))
  else (db', inr (aggregate engine video_source (collection db'))).

(** *** [delete_old_detections] *)

(** [timedelta(days=days)]: magnitudes above 999999999 days overflow. *)
Definition timedelta (days : Z) : Result Z :=
  if decide (Z.abs days ≤ 999999999) then inr (days * 86400000) else inl OverflowError.

(** [datetime.min] and [datetime.max] in milliseconds from the epoch. *)
Definition datetime_min : datetime := -62135596800000.
Definition datetime_max : datetime := 253402300799999.

Definition datetime_sub (t : datetime) (delta : Z) : Result datetime :=
  let r := t - delta in
  if decide (datetime_min ≤ r ≤ datetime_max) then inr r else inl OverflowError.

(** [collection.delete_many({"timestamp": {"$lt": cutoff_date}})] *)
Definition delete_many_lt (cutoff : datetime) (docs : list Document)
    : list Document * nat :=
  (filter (λ d, ¬ timestamp d < cutoff) docs,
   length (filter (λ d, timestamp d < cutoff) docs)).

Definition delete_old_detections (db : MongoDB) (utcnow : datetime) (days : Z)
    : MongoDB * Result nat :=
  let failure := inl (PyException "Failed to delete old detections") in
  match timedelta days with
  | inl _ => (db, failure)
  | inr delta =>
      match datetime_sub utcnow delta with
      | inl _ => (db, failure)
      | inr cutoff_date =>
          let '(failed, db') := driver_call db in
          if failed then (db', failure)
          else
            let '(kept, deleted_count) := delete_many_lt cutoff_date (collection db') in
            ({| collection := kept; faults := faults db' |}, inr deleted_count)
      end
  end.

(** ** main.py: [ObjectDetector] *)

(** What one iteration of the capture loop receives from outside: the
    value of [self.model(frame, ...)], the clock read by
    [datetime.utcnow()] if the frame is saved, and whether the key read by
    [cv2.waitKey(1)] is ['q']. *)
Record Frame := {
  results : list (list Box);
  utcnow : datetime;
  key_q : bool
}.

Record VideoCapture := { isOpened : bool; frames : list Frame }.

Record ObjectDetector := {
  config : Config;
  model : YOLO;
  class_counts : gmap string nat;
  frame_count : Z;
  processed_frames : Z;
  db : option MongoDB;
  stdout : list Output
}.

Definition print (self : ObjectDetector) (lines : list Output) : ObjectDetector :=
  {| config := config self; model := model self;
     class_counts := class_counts self; frame_count := frame_count self;
     processed_frames := processed_frames self; db := db self;
     stdout := stdout self ++ lines |}.

Definition set_db (self : ObjectDetector) (handle : option MongoDB) : ObjectDetector :=
  {| config := config self; model := model self;
     class_counts := class_counts self; frame_count := frame_count self;
     processed_frames := processed_frames self; db := handle;
     stdout := stdout self |}.

Definition set_counters (self : ObjectDetector) (counts : gmap string nat)
    (raw processed : Z) : ObjectDetector :=
  {| config := config self; model := model self;
     class_counts := counts; frame_count := raw;
     processed_frames := processed; db := db self;
     stdout := stdout self |}.

Definition __init__ (cfg : Config) (yolo : YOLO) (server : MongoDB) : ObjectDetector :=
  let self := {| config := cfg; model := yolo; class_counts := ∅;
                 frame_count := 0; processed_frames := 0; db := None;
                 stdout := [LoadingModel (MODEL_NAME cfg)] |} in
  if ENABLE_MONGODB cfg then
    match _connect server with
    | (handle, warnings, inr _) =>
        print (set_db self (Some handle))
              (warnings ++ [MongoConnected (MONGO_DB_NAME cfg) (MONGO_COLLECTION_NAME cfg)])
    | (_, warnings, inl e) =>
        print self (warnings ++ [MongoConnectionFailed e; ContinuingWithoutDatabase])
    end
  else self.

(** [sorted(counts.items())]: keys are distinct, so the pairs are ordered
    by class name. *)
Definition item_le (a b : string * nat) : Prop := String.leb a.1 b.1.

#[global] Instance item_le_dec : RelDecision item_le.
Proof. intros a b. unfold item_le. apply _. Defined.

#[global] Instance item_le_total : Total item_le.
Proof.
  intros a b. unfold item_le.
  destruct (String.leb_total a.1 b.1) as [H|H]; rewrite H; simpl; auto.
Qed.

Definition sorted_items (counts : gmap string nat) : list (string * nat) :=
  merge_sort item_le (map_to_list counts).

Definition _save_to_mongodb (self : ObjectDetector) (detections_list : list Detection)
    (frame_counts : gmap string nat) (source : string) (now : datetime)
    : ObjectDetector :=
  let document :=
    {| timestamp := now;
       video_source := source;
       frame_number := frame_count self;
       processed_frame_number := processed_frames self;
       total_objects_detected := length detections_list;
       object_counts := frame_counts;
       detections := detections_list;
       model_info := {| model_name := MODEL_NAME (config self);
                        confidence_threshold := CONFIDENCE_THRESHOLD (config self) |} |} in
  match db self with
  | None =>
      print self [MongoInsertError
                    (PyException "'NoneType' object has no attribute 'insert_detection'")]
  | Some handle =>
      match insert_detection handle document with
      | (handle', inr _) => set_db self (Some handle')
      | (handle', inl e) => print (set_db self (Some handle')) [MongoInsertError e]
      end
  end.

(** An empty [counts] is the line "No objects detected". *)
Definition _display_counts (self : ObjectDetector) (frame_counts : gmap string nat)
    : ObjectDetector :=
  print self [FrameCounts (frame_count self) (processed_frames self)
                          (sorted_items frame_counts)].

Definition _display_summary (self : ObjectDetector) : ObjectDetector :=
  print self [DetectionSummary (frame_count self) (processed_frames self)
                               (sorted_items (class_counts self))].

(** How one iteration of [while cap.isOpened()] ends. *)
Inductive Flow := Continue | Break | Raise (e : Exception).

(** Lines 56-127: the body of the loop after a frame was read. *)
Definition loop_body (source : string) (self : ObjectDetector) (frame : Frame)
    : ObjectDetector * Flow :=
  let self := set_counters self (class_counts self) (frame_count self + 1)
                           (processed_frames self) in
  if decide (FRAME_SKIP (config self) = 0) then (self, Raise ZeroDivisionError)
  else if decide (frame_count self `mod` FRAME_SKIP (config self) ≠ 0) then (self, Continue)
  else
    let self := set_counters self (class_counts self) (frame_count self)
                             (processed_frames self + 1) in
    let '(frame_counts, detections_list) :=
      collect_detections (config self) (model self) (results frame) in
    let self := set_counters self (update_total_counts (class_counts self) frame_counts)
                             (frame_count self) (processed_frames self) in
    let self :=
      match db self, detections_list with
      | Some _, _ :: _ =>
          _save_to_mongodb self detections_list frame_counts source (utcnow frame)
      | _, _ => self
      end in
    let self := _display_counts self frame_counts in
    if DISPLAY_VIDEO (config self) && key_q frame
    then (print self [StoppingDetection], Break)
    else (self, Continue).

(** The loop itself: it ends when [cap.read()] has no more frames, on
    [break], or when the body raises. *)
Fixpoint capture_loop (source : string) (self : ObjectDetector) (stream : list Frame)
    : ObjectDetector * option Exception :=
  match stream with
  | [] => (self, None)
  | frame :: rest =>
      match loop_body source self frame with
      | (self', Continue) => capture_loop source self' rest
      | (self', Break) => (self', None)
      | (self', Raise e) => (self', Some e)
      end
  end.

(** [process_video]: the summary is printed in [finally], also when the
    loop raised; the exception then leaves the method. An interrupt from
    the keyboard is asynchronous and is not part of the embedding. *)
Definition process_video (self : ObjectDetector) (source : string) (cap : VideoCapture)
    : ObjectDetector * option Exception :=
  if isOpened cap then
    let self := print self [VideoHeader source (FRAME_SKIP (config self))
                                        (CONFIDENCE_THRESHOLD (config self))] in
    let '(self', raised) := capture_loop source self (frames cap) in
    (_display_summary self', raised)
  else (print self [CannotOpenSource source], None).

(** ** queary_db.py *)

(** [str.strip], [str.lower] and [int(str)] are the interpreter's own:
    they work on Unicode text with the interpreter's character tables
    (white space, case mapping, decimal digits), which are no part of the
    program. The functions that call them take them as given. [int] is
    [None] where Python raises [ValueError]. *)
Record Builtins := {
  strip : string → string;
  lower : string → string;
  int : string → option Z
}.

(** [cleanup_old_data(days)]: [with MongoDB() as db] opens a connection of
    its own. *)
Definition cleanup_old_data (server : MongoDB) (now : datetime) (days : Z)
    : MongoDB * list Output * Result unit :=
  match _connect server with
  | (handle, warnings, inl e) => (handle, warnings, inl e)
  | (handle, warnings, inr _) =>
      match delete_old_detections handle now days with
      | (handle', inl e) => (handle', warnings ++ [CleaningUp days], inl e)
      | (handle', inr deleted_count) =>
          (handle', warnings ++ [CleaningUp days; DeletedRecords deleted_count], inr ())
      end
  end.

(** Option 6 of the menu in [main], with the two answers typed at the
    prompts. The second prompt is reached only when the first answer
    parses. *)
Definition menu_cleanup (py : Builtins) (server : MongoDB) (now : datetime)
    (days_answer confirm_answer : string) : MongoDB * list Output :=
  let days_text := strip py days_answer in
  match (if decide (days_text = "") then Some 7 else int py days_text) with
  | None => (server, [ErrorLine ValueError])
  | Some days =>
      let confirm := lower py (strip py confirm_answer) in
      if decide (confirm = "yes") then
        match cleanup_old_data server now days with
        | (server', out, inl e) => (server', out ++ [ErrorLine e])
        | (server', out, inr _) => (server', out)
        end
      else (server, [CleanupCancelled])
  end.

(** The ways the purge can be invoked, and whether a confirmation
    accompanies the invocation: only the menu asks for one. *)
Inductive PurgeCall :=
| DeleteOldDetections (days : Z)
| CleanupOldData (days : Z)
| MenuCleanup (days_answer confirm_answer : string).

Definition confirmation_supplied (py : Builtins) (call : PurgeCall) : bool :=
  match call with
  | MenuCleanup _ confirm_answer =>
      bool_decide (lower py (strip py confirm_answer) = "yes")
  | _ => false
  end.

Definition purge (py : Builtins) (call : PurgeCall) (server : MongoDB) (now : datetime)
    : MongoDB :=
  match call with
  | DeleteOldDetections days => (delete_old_detections server now days).1
  | CleanupOldData days => (cleanup_old_data server now days).1.1
  | MenuCleanup days_answer confirm_answer =>
      (menu_cleanup py server now days_answer confirm_answer).1
  end.

(** ** config.py: [TARGET_CLASSES]

    Lines 29-30: the value of the variable is cut at commas, each piece
    is stripped, and the pieces left empty are dropped; an empty value
    gives the empty list (detect all classes). *)

(** [str.split(',')] *)
Fixpoint split_comma (s : string) : list string :=
  match s with
  | EmptyString => [EmptyString]
  | String a rest =>
      if Ascii.eqb a ","%char then EmptyString :: split_comma rest
      else match split_comma rest with
           | piece :: pieces => String a piece :: pieces
           | [] => [String a EmptyString]
           end
  end.

Definition parse_target_classes (py : Builtins) (TARGET_CLASSES_STR : string)
    : list string :=
  if decide (TARGET_CLASSES_STR = "") then []
  else filter (λ name, name ≠ "") (strip py <$> split_comma TARGET_CLASSES_STR).

(** ** database.py: the two [find] queries

    [find(query).sort("timestamp", -1).limit(limit)]: the matching
    documents, newest first, cut to [limit] documents; a limit of [0]
    means no limit. Limits are natural numbers; negative limits are
    outside the embedding. *)

Definition newest_first (d1 d2 : Document) : Prop := timestamp d2 ≤ timestamp d1.

#[global] Instance newest_first_dec : RelDecision newest_first.
Proof. intros d1 d2. unfold newest_first. apply _. Defined.

#[global] Instance newest_first_total : Total newest_first.
Proof. intros d1 d2. unfold newest_first. lia. Qed.

#[global] Instance newest_first_transitive : Transitive newest_first.
Proof. intros d1 d2 d3. unfold newest_first. lia. Qed.

Definition sort_timestamp_desc (docs : list Document) : list Document :=
  merge_sort newest_first docs.

Definition limit_stage (limit : nat) (docs : list Document) : list Document :=
  match limit with O => docs | _ => take limit docs end.

Definition get_detections_by_source (db : MongoDB) (source : string) (limit : nat)
    : MongoDB * Result (list Document) :=
  let '(failed, db') := driver_call db in
  if failed then (db', inl (PyException "Failed to query detections"))
  else (db', inr (limit_stage limit
                    (sort_timestamp_desc
                       (filter (λ d, video_source d = source) (collection db'))))).

(** The query [{"timestamp": {"$gte": start_time, "$lte": end_time}}],
    with the source added when one is given. *)
Definition in_time_range (start_time end_time : datetime) (source : option string)
    (d : Document) : Prop :=
  start_time ≤ timestamp d ≤ end_time ∧
  match given source with
  | Some s => video_source d = s
  | None => True
  end.

#[global] Instance in_time_range_dec start_time end_time source d :
  Decision (in_time_range start_time end_time source d).
Proof. unfold in_time_range. destruct (given source); apply _. Defined.

Definition get_detections_by_time_range (db : MongoDB) (start_time end_time : datetime)
    (source : option string) : MongoDB * Result (list Document) :=
  let '(failed, db') := driver_call db in
  if failed then (db', inl (PyException "Failed to query detections"))
  else (db', inr (sort_timestamp_desc
                    (filter (in_time_range start_time end_time source) (collection db')))).

(** ** queary_db.py: the reports

    The report functions print what they return here; separator and
    banner lines are left out. Each [with MongoDB() as db] connects anew. *)

(** [display_recent_detections(limit)]: the documents listed, in order;
    the empty list is the line "No detections found in database.". The
    [find] is outside any [try] of database.py, so its error is the
    driver's own. *)
Definition display_recent_detections (server : MongoDB) (limit : nat)
    : MongoDB * list Output * Result (list Document) :=
  match _connect server with
  | (handle, warnings, inl e) => (handle, warnings, inl e)
  | (handle, warnings, inr _) =>
      let '(failed, handle') := driver_call handle in
      if failed then (handle', warnings, inl (PyException "ServerSelectionTimeoutError"))
      else (handle', warnings,
            inr (limit_stage limit (sort_timestamp_desc (collection handle'))))
  end.

(** Lines 95-98: [total_objects[cls_name] = total_objects.get(cls_name, 0) + count]
    for every item of every listed document's [object_counts]. *)
Definition add_object_counts (total_objects counts : gmap string nat)
    : gmap string nat :=
  map_fold (λ cls_name count acc,
              <[cls_name := (default 0%nat (acc !! cls_name) + count)%nat]> acc)
           total_objects counts.

Definition aggregate_object_counts (listed : list Document) : gmap string nat :=
  foldl (λ total_objects det, add_object_counts total_objects (object_counts det))
        ∅ listed.

(** [timedelta(hours=hours)] *)
Definition timedelta_hours (hours : Z) : Result Z :=
  if decide (Z.abs (hours `div` 24) ≤ 999999999) then inr (hours * 3600000)
  else inl OverflowError.

(** [display_detections_by_time_range(hours)]: the number of documents
    found and the aggregated counts; [None] is the line "No detections
    found in the last N hour(s).". The counts are printed by descending
    count; the order of equal counts follows the dictionary and is not
    represented. *)
Definition display_detections_by_time_range (server : MongoDB) (now : datetime)
    (hours : Z) : MongoDB * list Output * Result (option (nat * gmap string nat)) :=
  match _connect server with
  | (handle, warnings, inl e) => (handle, warnings, inl e)
  | (handle, warnings, inr _) =>
      match timedelta_hours hours with
      | inl e => (handle, warnings, inl e)
      | inr delta =>
          match datetime_sub now delta with
          | inl e => (handle, warnings, inl e)
          | inr start_time =>
              match get_detections_by_time_range handle start_time now None with
              | (handle', inl e) => (handle', warnings, inl e)
              | (handle', inr []) => (handle', warnings, inr None)
              | (handle', inr listed) =>
                  (handle', warnings,
                   inr (Some (length listed, aggregate_object_counts listed)))
              end
          end
      end
  end.

(** [display_object_statistics(video_source)]: the rows printed; the
    empty list is the line "No statistics available.". *)
Definition display_object_statistics (server : MongoDB) (engine : Engine)
    (source : option string)
    : MongoDB * list Output * Result (list ClassStatistics) :=
  match _connect server with
  | (handle, warnings, inl e) => (handle, warnings, inl e)
  | (handle, warnings, inr _) =>
      match get_object_statistics handle engine source with
      | (handle', result) => (handle', warnings, result)
      end
  end.

(** ** main.py: [main] *)
Definition main (cfg : Config) (yolo : YOLO) (server : MongoDB) (cap : VideoCapture)
    : ObjectDetector * option Exception :=
  process_video (__init__ cfg yolo server) (VIDEO_SOURCE cfg) cap.

(** ** Observations used in the statements *)

(** The documents a detector can have written: those of its store. *)
Definition stored (self : ObjectDetector) : list Document :=
  match db self with
  | Some handle => collection handle
  | None => []
  end.

(** [sum(object_counts.values())] *)
Definition sum_values (counts : gmap string nat) : nat :=
  map_fold (λ _ count acc, count + acc)%nat 0%nat counts.

(** Number of entries of a detection list bearing a class name. *)
Definition count_class (name : string) (ds : list Detection) : nat :=
  length (filter (λ d, class_name d = name) ds).

(** The per-frame lines [Frame i (Processed: k)] of an output, as pairs. *)
Definition processed_log (out : list Output) : list (Z * Z) :=
  omap (λ line, match line with
                | FrameCounts frame processed _ => Some (frame, processed)
                | _ => None
                end) out.

(** An output without its insert-error reports. *)
Definition is_insert_error (line : Output) : bool :=
  match line with MongoInsertError _ => true | _ => false end.

Definition without_insert_errors (out : list Output) : list Output :=
  filter (λ line, is_insert_error line = false) out.

(** The order the statistics would have with ties on [total_count]
    broken by ascending class name. *)
Definition count_desc_then_name (r1 r2 : ClassStatistics) : Prop :=
  (total_count r2 < total_count r1)%nat ∨
  (total_count r1 = total_count r2 ∧ String.leb (_id r1) (_id r2)).

#[global] Instance count_desc_then_name_dec : RelDecision count_desc_then_name.
Proof. intros r1 r2. unfold count_desc_then_name. apply _. Defined.

(** The cadence invariant: with skip interval [N], the processed counter
    is the number of multiples of [N] among the raw indices so far, and
    the per-frame lines list exactly those indices with their rank. *)
Definition cadence_ok (N : Z) (self : ObjectDetector) : Prop :=
  0 ≤ frame_count self ∧
  processed_frames self = frame_count self `div` N ∧
  processed_log (stdout self) = (λ k, (k * N, k)) <$> seqZ 1 (frame_count self `div` N).

(** What the tally says about a class, given what the list holds. *)
Definition tally_of (c : string) (ds : list Detection) : option nat :=
  match count_class c ds with O => None | n => Some n end.

(** A document written while [stream] was processed: it carries the
    tallies and the detection list built from one of the frames, which had
    at least one detection left after filtering. *)
Definition persisted_from (config : Config) (model : YOLO) (source : string)
    (stream : list Frame) (doc : Document) : Prop :=
  ∃ frame, frame ∈ stream ∧
    object_counts doc = (collect_detections config model (results frame)).1 ∧
    detections doc = (collect_detections config model (results frame)).2 ∧
    detections doc ≠ [] ∧
    total_objects_detected doc = length (detections doc) ∧
    timestamp doc = utcnow frame ∧ video_source doc = source.




(** What the aggregation pipeline fixes about its result: the rows are
    the groups of the selected events, in an order that is descending in
    [total_count]. *)
Definition admissible_statistics (engine : Engine) (video_source : option string)
    (docs : list Document) (rows : list ClassStatistics) : Prop :=
  rows ≡ₚ group_stage engine (unwind_stage (select_events video_source docs)) ∧
  StronglySorted count_desc rows.

(** The place of a name in a list of names, the length of the list for a
    name that is not in it. *)
Fixpoint position (name : string) (names : list string) : nat :=
  match names with
  | [] => 0%nat
  | first :: rest => if decide (name = first) then 0%nat else S (position name rest)
  end.

(** A server that brings tied rows out in the order [rows] has them. *)
Definition ranked_as (engine : Engine) (rows : list ClassStatistics) : Engine :=
  {| avg := avg engine; key_rank := λ name, position name (_id <$> rows) |}.

(** Whether a string holds a comma, and [",".join(names)]. *)
Fixpoint contains_comma (s : string) : bool :=
  match s with
  | EmptyString => false
  | String a rest => Ascii.eqb a ","%char || contains_comma rest
  end.

Fixpoint join_comma (names : list string) : string :=
  match names with
  | [] => EmptyString
  | [name] => name
  | name :: rest => String.append name (String ","%char (join_comma rest))
  end.

(** A class name as the parser returns them: not empty, left as it is by
    [strip] (no white space at either end), without a comma. *)
Definition clean_name (py : Builtins) (name : string) : Prop :=
  name ≠ "" ∧ strip py name = name ∧ contains_comma name = false.

(** Two facts about [str.strip] that the parsed names rest on: stripping
    twice is stripping once, and the result, a part of the argument, has
    no comma that the argument has not. *)
Definition strip_idempotent (py : Builtins) : Prop :=
  ∀ s, strip py (strip py s) = strip py s.

Definition strip_adds_no_comma (py : Builtins) : Prop :=
  ∀ s, contains_comma s = false → contains_comma (strip py s) = false.

(** ** Sample inputs *)

Definition q (n : Z) (d : positive) : float := Q2Qc (n # d).

Definition coco : YOLO :=
  {| names := λ n, match n with
                   | 0%nat => "person" | 1%nat => "bicycle" | 2%nat => "car"
                   | 22%nat => "zebra" | 47%nat => "apple" | _ => "bench"
                   end |}.

Definition sample_box (class_id : nat) (percent : Z) : Box :=
  {| cls := class_id; conf := q percent 100;
     xyxy := (q 21 2, q 40 1, q 321 4, q 200 1) |}.

Definition sample_config (skip : Z) (targets : list string) : Config :=
  {| MODEL_NAME := "yolov8m.pt"; VIDEO_SOURCE := "sample.mp4";
     FRAME_SKIP := skip; CONFIDENCE_THRESHOLD := q 1 2;
     TARGET_CLASSES := targets; DISPLAY_VIDEO := false;
     ENABLE_MONGODB := true; MONGO_DB_NAME := "yolo_detections";
     MONGO_COLLECTION_NAME := "detections" |}.

Definition sample_frame (boxes : list Box) (now : datetime) : Frame :=
  {| results := [boxes]; utcnow := now; key_q := false |}.

Definition empty_server (script : list bool) : MongoDB :=
  {| collection := []; faults := script |}.

Definition sample_stream : list Frame :=
  [ sample_frame [sample_box 2 90; sample_box 0 75] 1000;
    sample_frame [sample_box 22 80] 2000;
    sample_frame [sample_box 2 80; sample_box 2 95; sample_box 22 60] 3000;
    sample_frame [] 4000 ].

Definition sample_capture : VideoCapture :=
  {| isOpened := true; frames := sample_stream |}.

Definition sample_document (now : datetime) (names_confidences : list (string * Z))
    : Document :=
  let ds := map (λ p : string * Z,
                   {| class_name := p.1; confidence := q p.2 100;
                      bounding_box := {| x1 := 0%Qc; y1 := 0%Qc; x2 := 1%Qc; y2 := 1%Qc |} |})
                names_confidences in
  {| timestamp := now; video_source := "sample.mp4";
     frame_number := 1; processed_frame_number := 1;
     total_objects_detected := length ds;
     object_counts := foldl (λ (m : gmap string nat) (d : Detection),
                               <[class_name d := S (m !!! class_name d)]> m) ∅ ds;
     detections := ds;
     model_info := {| model_name := "yolov8m.pt"; confidence_threshold := q 1 2 |} |}.

(** A capture whose second frame has no detection. *)
Definition gap_capture : VideoCapture :=
  {| isOpened := true;
     frames := [ sample_frame [sample_box 2 90] 1000;
                 sample_frame [] 2000;
                 sample_frame [sample_box 0 85; sample_box 2 70] 3000 ] |}.

(** Servers for the samples: the mean in exact arithmetic, and tied
    class names brought out in the order of the list given, names not in
    the list after them. *)
Definition exact_mean (xs : list float) : float :=
  (foldr Qcplus 0%Qc xs / Q2Qc (inject_Z (Z.of_nat (length xs))))%Qc.

Definition sample_engine (order : list string) : Engine :=
  {| avg := exact_mean; key_rank := λ name, position name order |}.

(** A store with three events, one class tied with another on count. *)
Definition statistics_server : MongoDB :=
  {| collection := [ sample_document 1000 [("zebra", 80); ("car", 90)];
                     sample_document 2000 [("apple", 60); ("car", 70)];
                     sample_document 3000 [("car", 95)] ];
     faults := [] |}.

(** The three built-ins on text that is ASCII throughout, where white
    space is the characters 9-13 and 28-32, the letters with another case
    are A-Z and a-z, and the decimal digits are 0-9. They agree with
    Python on such text, which the sample answers and class names are,
    and are not meant for other text. *)
Definition ascii_is_space (a : Ascii.ascii) : bool :=
  let n := Ascii.N_of_ascii a in
  ((9 <=? n) && (n <=? 13) || (28 <=? n) && (n <=? 32))%N.

Fixpoint ascii_lstrip (s : string) : string :=
  match s with
  | EmptyString => EmptyString
  | String a rest => if ascii_is_space a then ascii_lstrip rest else s
  end.

Fixpoint ascii_rstrip (s : string) : string :=
  match s with
  | EmptyString => EmptyString
  | String a rest =>
      match ascii_rstrip rest with
      | EmptyString => if ascii_is_space a then EmptyString else String a EmptyString
      | kept => String a kept
      end
  end.

Definition ascii_strip (s : string) : string := ascii_rstrip (ascii_lstrip s).

Definition ascii_lower_char (a : Ascii.ascii) : Ascii.ascii :=
  let n := Ascii.N_of_ascii a in
  if ((65 <=? n) && (n <=? 90))%N then Ascii.ascii_of_N (n + 32) else a.

Fixpoint ascii_lower (s : string) : string :=
  match s with
  | EmptyString => EmptyString
  | String a rest => String (ascii_lower_char a) (ascii_lower rest)
  end.

Definition ascii_digit_value (a : Ascii.ascii) : option Z :=
  let n := Z.of_N (Ascii.N_of_ascii a) in
  if (48 <=? n) && (n <=? 57) then Some (n - 48) else None.

(** Decimal digits, single underscores allowed between digits. *)
Fixpoint ascii_int_digits (s : string) (acc : Z) (after_digit : bool) : option Z :=
  match s with
  | EmptyString => if after_digit then Some acc else None
  | String a rest =>
      if Ascii.eqb a "_"%char
      then (if after_digit then ascii_int_digits rest acc false else None)
      else match ascii_digit_value a with
           | Some d => ascii_int_digits rest (10 * acc + d) true
           | None => None
           end
  end.

Definition ascii_int (s : string) : option Z :=
  let text := ascii_strip s in
  let '(sign, body) :=
    match text with
    | String "-"%char rest => (-1, rest)
    | String "+"%char rest => (1, rest)
    | _ => (1, text)
    end in
  match ascii_int_digits body 0 false with
  | Some n => Some (sign * n)
  | None => None
  end.

Definition ascii_text : Builtins :=
  {| strip := ascii_strip; lower := ascii_lower; int := ascii_int |}.

(** A store with events just before, at and after the cutoff of a purge
    of 7 days run at instant [purge_now]. *)
Definition purge_now : datetime := 1000000000000.
Definition purge_cutoff : datetime := purge_now - 7 * 86400000.

Definition aged_server : MongoDB :=
  {| collection := [ sample_document (purge_cutoff - 1) [("car", 90)];
                     sample_document purge_cutoff [("person", 80)];
                     sample_document (purge_cutoff + 1) [("car", 70)] ];
     faults := [] |}.

(** A server that does not answer the first call (the ping), and one that
    answers the ping and the four index creations and then fails the
    first insert. *)
Definition unreachable_server : MongoDB := empty_server [true].
Definition flaky_server : MongoDB :=
  empty_server [false; false; false; false; false; true].

(** * Properties *)

(** ** Running maxima (lines 107-109) *)

Lemma update_total_counts_lookup (class_counts frame_counts : gmap string nat) (c : string) :
  update_total_counts class_counts frame_counts !! c =
  match frame_counts !! c with
  | Some count => Some (Nat.max (class_counts !!! c) count)
  | None => class_counts !! c
  end.
Proof.
  unfold update_total_counts. revert c.
  apply (map_fold_weak_ind (λ acc (m : gmap string nat), ∀ c : string,
    acc !! c = match m !! c with
               | Some count => Some (Nat.max (class_counts !!! c) count)
               | None => class_counts !! c
               end)).
  - intros c. by rewrite lookup_empty.
  - intros i x m acc Hfresh IH c.
    destruct (decide (i = c)) as [->|Hne].
    + rewrite !lookup_insert_eq. do 2 f_equal.
      rewrite !lookup_total_alt, IH, Hfresh. done.
    + rewrite !lookup_insert_ne by done. apply IH.
Qed.

Lemma update_total_counts_total (class_counts frame_counts : gmap string nat) (c : string) :
  update_total_counts class_counts frame_counts !!! c =
  Nat.max (class_counts !!! c) (frame_counts !!! c).
Proof.
  rewrite !lookup_total_alt, update_total_counts_lookup.
  destruct (frame_counts !! c) as [count|]; simpl; [done|].
  destruct (class_counts !! c); simpl; lia.
Qed.

Lemma fold_update_total (snapshots : list (gmap string nat))
    (class_counts : gmap string nat) (c : string) :
  foldl update_total_counts class_counts snapshots !!! c =
  Nat.max (class_counts !!! c) (max_list_with (λ s : gmap string nat, s !!! c) snapshots).
Proof.
  revert class_counts.
  induction snapshots as [|s rest IH]; intros class_counts; simpl.
  - lia.
  - rewrite IH, update_total_counts_total. lia.
Qed.

(** ** The capture loop: what an iteration can change *)

(** The three ways an iteration ends, with the state each leaves. *)
Lemma loop_body_cases (source : string) (self : ObjectDetector) (frame : Frame) :
  let raw := frame_count self + 1 in
  let snapshot := collect_detections (config self) (model self) (results frame) in
  let advanced := set_counters self (class_counts self) raw (processed_frames self) in
  let counted := set_counters self (update_total_counts (class_counts self) snapshot.1)
                              raw (processed_frames self + 1) in
  let saved := match db self, snapshot.2 with
               | Some _, _ :: _ =>
                   _save_to_mongodb counted snapshot.2 snapshot.1 source (utcnow frame)
               | _, _ => counted
               end in
  let shown := _display_counts saved snapshot.1 in
  (FRAME_SKIP (config self) = 0 ∧
     loop_body source self frame = (advanced, Raise ZeroDivisionError)) ∨
  (FRAME_SKIP (config self) ≠ 0 ∧ raw `mod` FRAME_SKIP (config self) ≠ 0 ∧
     loop_body source self frame = (advanced, Continue)) ∨
  (FRAME_SKIP (config self) ≠ 0 ∧ raw `mod` FRAME_SKIP (config self) = 0 ∧
     loop_body source self frame =
       if DISPLAY_VIDEO (config self) && key_q frame
       then (print shown [StoppingDetection], Break) else (shown, Continue)).
Proof.
  intros raw snapshot advanced counted saved shown.
  unfold loop_body. simpl.
  destruct (decide (FRAME_SKIP (config self) = 0)) as [Hzero|Hzero]; [left; done|].
  right.
  destruct (decide ((frame_count self + 1) `mod` FRAME_SKIP (config self) ≠ 0))
    as [Hskip|Hrun]; [left; done|].
  right. split; [done|]. split; [by apply dec_stable|].
  subst shown saved counted snapshot.
  destruct (collect_detections (config self) (model self) (results frame))
    as [frame_counts detections_list]; simpl.
  destruct (db self) as [handle|] eqn:Hdb, detections_list as [|d ds]; try reflexivity.
  unfold _save_to_mongodb; simpl. rewrite Hdb.
  destruct (insert_detection _ _) as [handle' [e|[]]]; reflexivity.
Qed.

Lemma save_keeps_counters (self : ObjectDetector) (ds : list Detection)
    (counts : gmap string nat) (source : string) (now : datetime) :
  let self' := _save_to_mongodb self ds counts source now in
  config self' = config self ∧ model self' = model self ∧
  class_counts self' = class_counts self ∧
  frame_count self' = frame_count self ∧
  processed_frames self' = processed_frames self.
Proof.
  unfold _save_to_mongodb. destruct (db self) as [handle|]; [|done].
  by destruct (insert_detection _ _) as [handle' [e|[]]].
Qed.

(** Fields of the state after one iteration. *)
Lemma loop_body_fields (source : string) (self : ObjectDetector) (frame : Frame) :
  let self' := (loop_body source self frame).1 in
  config self' = config self ∧ model self' = model self ∧
  frame_count self' = frame_count self + 1 ∧
  (class_counts self' = class_counts self ∨
   class_counts self' =
     update_total_counts (class_counts self)
       (collect_detections (config self) (model self) (results frame)).1).
Proof.
  destruct (loop_body_cases source self frame)
    as [[_ ->]|[(_ & _ & ->)|(_ & _ & ->)]]; simpl; [by auto|by auto|].
  set (snapshot := collect_detections _ _ _).
  set (counted := set_counters _ _ _ _).
  assert (Hsaved : ∀ saved, saved = match db self, snapshot.2 with
               | Some _, _ :: _ =>
                   _save_to_mongodb counted snapshot.2 snapshot.1 source (utcnow frame)
               | _, _ => counted
               end →
      config saved = config self ∧ model saved = model self ∧
      frame_count saved = frame_count self + 1 ∧
      class_counts saved = update_total_counts (class_counts self) snapshot.1).
  { intros saved ->.
    destruct (db self), (snapshot.2); try done.
    destruct (save_keeps_counters counted (d :: l) snapshot.1 source (utcnow frame))
      as (-> & -> & -> & -> & _). done. }
  destruct (Hsaved _ eq_refl) as (? & ? & ? & ?).
  destruct (DISPLAY_VIDEO (config self) && key_q frame); simpl; auto.
Qed.

(** A property kept by every iteration holds when the loop ends. *)
Lemma capture_loop_preserves (P : ObjectDetector → Prop) (source : string) :
  (∀ self frame, P self → P (loop_body source self frame).1) →
  ∀ stream self, P self → P (capture_loop source self stream).1.
Proof.
  intros Hstep stream.
  induction stream as [|frame rest IH]; intros self HP; simpl; [done|].
  specialize (Hstep self frame HP).
  destruct (loop_body source self frame) as [self' [| |e]]; simpl in *; auto.
Qed.

Lemma process_video_preserves (P : ObjectDetector → Prop) (source : string) :
  (∀ self lines, processed_log lines = [] → P self → P (print self lines)) →
  (∀ self frame, P self → P (loop_body source self frame).1) →
  ∀ cap self, P self → P (process_video self source cap).1.
Proof.
  intros Hprint Hstep cap self HP. unfold process_video.
  destruct (isOpened cap); simpl; [|by apply Hprint].
  pose proof (capture_loop_preserves P source Hstep (frames cap) _
                (Hprint self [VideoHeader source (FRAME_SKIP (config self))
                                (CONFIDENCE_THRESHOLD (config self))] eq_refl HP)) as Hloop.
  destruct (capture_loop _ _ _) as [self' raised]; simpl in *.
  by apply Hprint.
Qed.

(** C1. Folding per-frame snapshots into the running counters stores, for
    each class, the maximum of the snapshots' counts for that class (not
    their sum); a class absent from a snapshot keeps its previous value;
    a counter never decreases, in one fold and over a whole run of
    [process_video], whose iterations change the counters only by such a
    fold of the frame's snapshot. *)
Theorem running_max_counters (snapshots : list (gmap string nat))
    (class_counts0 frame_counts : gmap string nat) (c : string)
    (self : ObjectDetector) (source : string) (frame : Frame) (cap : VideoCapture) :
  foldl update_total_counts ∅ snapshots !!! c
    = max_list_with (λ s : gmap string nat, s !!! c) snapshots ∧
  foldl update_total_counts class_counts0 snapshots !!! c
    = Nat.max (class_counts0 !!! c)
              (max_list_with (λ s : gmap string nat, s !!! c) snapshots) ∧
  update_total_counts class_counts0 frame_counts !! c
    = match frame_counts !! c with
      | Some count => Some (Nat.max (class_counts0 !!! c) count)
      | None => class_counts0 !! c
      end ∧
  (class_counts0 !!! c ≤ update_total_counts class_counts0 frame_counts !!! c)%nat ∧
  (class_counts (loop_body source self frame).1 = class_counts self ∨
   class_counts (loop_body source self frame).1
     = update_total_counts (class_counts self)
         (collect_detections (config self) (model self) (results frame)).1) ∧
  (class_counts self !!! c ≤ class_counts (process_video self source cap).1 !!! c)%nat.
Proof.
  split_and!.
  - rewrite fold_update_total, lookup_total_empty. done.
  - apply fold_update_total.
  - apply update_total_counts_lookup.
  - rewrite update_total_counts_total. lia.
  - apply loop_body_fields.
  - apply (process_video_preserves
             (λ s, (class_counts self !!! c ≤ class_counts s !!! c)%nat)); [done| |done].
    intros s fr Hle.
    destruct (loop_body_fields source s fr) as (_ & _ & _ & [-> | ->]); [done|].
    rewrite update_total_counts_total. lia.
Qed.

(** ** Frame cadence (lines 56-62) *)

Lemma processed_log_app (out1 out2 : list Output) :
  processed_log (out1 ++ out2) = processed_log out1 ++ processed_log out2.
Proof. apply omap_app. Qed.

Lemma create_index_calls_out (n : nat) (handle : MongoDB) :
  (create_index_calls n handle).2 = [] ∨ (create_index_calls n handle).2 = [IndexWarning].
Proof.
  revert handle. induction n as [|n IH]; intros handle; simpl; [by left|].
  destruct (driver_call handle) as [[] handle']; simpl; auto.
Qed.

Lemma connect_out (server : MongoDB) :
  (_connect server).1.2 = [] ∨ (_connect server).1.2 = [IndexWarning].
Proof.
  unfold _connect, _create_indexes.
  destruct (driver_call server) as [[] handle]; [by left|].
  pose proof (create_index_calls_out 4 handle) as Hout.
  destruct (create_index_calls 4 handle) as [handle' out]. exact Hout.
Qed.

Lemma init_fields (cfg : Config) (yolo : YOLO) (server : MongoDB) :
  let self := __init__ cfg yolo server in
  config self = cfg ∧ model self = yolo ∧ class_counts self = ∅ ∧
  frame_count self = 0 ∧ processed_frames self = 0 ∧
  processed_log (stdout self) = [] ∧ without_insert_errors (stdout self) = stdout self.
Proof.
  unfold __init__. destruct (ENABLE_MONGODB cfg); [|done].
  pose proof (connect_out server) as Hout.
  destruct (_connect server) as [[handle warnings] [e|[]]]; simpl in *;
    destruct Hout as [-> | ->]; done.
Qed.

Lemma save_stdout (self : ObjectDetector) (ds : list Detection)
    (counts : gmap string nat) (source : string) (now : datetime) :
  ∃ reports, stdout (_save_to_mongodb self ds counts source now) = stdout self ++ reports ∧
             processed_log reports = [] ∧ without_insert_errors reports = [].
Proof.
  unfold _save_to_mongodb. destruct (db self) as [handle|].
  - destruct (insert_detection _ _) as [handle' [e|[]]]; simpl.
    + by eexists [_].
    + exists []. by rewrite app_nil_r.
  - by eexists [_].
Qed.

Lemma cadence_arith_skip (a N : Z) :
  1 ≤ N → 0 ≤ a → (a + 1) `mod` N ≠ 0 → (a + 1) `div` N = a `div` N.
Proof.
  intros HN Ha Hmod.
  pose proof (Z.div_mod a N ltac:(lia)) as Hdm.
  pose proof (Z.mod_pos_bound a N ltac:(lia)) as Hr.
  destruct (decide (a `mod` N + 1 = N)) as [Hfull|Hpart].
  - exfalso. apply Hmod.
    replace (a + 1) with ((a `div` N + 1) * N) by lia. apply Z.mod_mul. lia.
  - symmetry. apply (Z.div_unique _ _ _ (a `mod` N + 1)); lia.
Qed.

Lemma cadence_arith_hit (a N : Z) :
  1 ≤ N → 0 ≤ a → (a + 1) `mod` N = 0 →
  (a + 1) `div` N = a `div` N + 1 ∧ (a `div` N + 1) * N = a + 1 ∧ 0 ≤ a `div` N.
Proof.
  intros HN Ha Hmod.
  pose proof (Z.div_mod (a + 1) N ltac:(lia)) as Hdm. rewrite Hmod in Hdm.
  assert (Hq : a `div` N = (a + 1) `div` N - 1).
  { symmetry. apply (Z.div_unique _ _ _ (N - 1)); lia. }
  pose proof (Z.div_pos a N Ha ltac:(lia)). lia.
Qed.

Lemma cadence_ok_print (N : Z) (self : ObjectDetector) (lines : list Output) :
  processed_log lines = [] → cadence_ok N self → cadence_ok N (print self lines).
Proof.
  intros Hlines (? & ? & Hlog). unfold cadence_ok; simpl.
  rewrite processed_log_app, Hlines, app_nil_r. done.
Qed.

Lemma cadence_step (source : string) (self : ObjectDetector) (frame : Frame) :
  1 ≤ FRAME_SKIP (config self) →
  cadence_ok (FRAME_SKIP (config self)) self →
  cadence_ok (FRAME_SKIP (config self)) (loop_body source self frame).1.
Proof.
  intros HN (Hraw & Hproc & Hlog). unfold cadence_ok.
  destruct (loop_body_cases source self frame)
    as [[Hzero _]|[(_ & Hmod & ->)|(_ & Hmod & ->)]]; [lia| |].
  - simpl. rewrite (cadence_arith_skip _ _ HN Hraw Hmod). split_and!; [lia|done|done].
  - destruct (cadence_arith_hit _ _ HN Hraw Hmod) as (Hdiv & Hmul & Hq).
    set (snapshot := collect_detections _ _ _).
    set (counted := set_counters _ _ _ _).
    set (saved := match db self, snapshot.2 with
                  | Some _, _ :: _ => _ | _, _ => counted end).
    assert (Hsaved : frame_count saved = frame_count self + 1 ∧
                     processed_frames saved = processed_frames self + 1 ∧
                     processed_log (stdout saved) = processed_log (stdout self)).
    { subst saved. destruct (db self), (snapshot.2); try done.
      destruct (save_keeps_counters counted (d :: l) snapshot.1 source (utcnow frame))
        as (_ & _ & _ & -> & ->).
      destruct (save_stdout counted (d :: l) snapshot.1 source (utcnow frame))
        as (reports & -> & Hrep & _).
      rewrite processed_log_app, Hrep, app_nil_r. done. }
    destruct Hsaved as (Hf & Hp & Hl).
    assert (Hshown : cadence_ok (FRAME_SKIP (config self)) (_display_counts saved snapshot.1)).
    { unfold cadence_ok, _display_counts; simpl.
      rewrite processed_log_app, Hl, Hlog, Hf, Hp, Hdiv, Hproc. simpl.
      split_and!; [lia|done|].
      rewrite (seqZ_app 1 (frame_count self `div` FRAME_SKIP (config self)) 1) by lia.
      rewrite fmap_app. simpl. do 3 f_equal; lia. }
    destruct (DISPLAY_VIDEO (config self) && key_q frame); [|done].
    by apply cadence_ok_print.
Qed.

Lemma loop_body_flow (source : string) (self : ObjectDetector) (frame : Frame) :
  FRAME_SKIP (config self) ≠ 0 →
  (∀ e, (loop_body source self frame).2 ≠ Raise e) ∧
  (DISPLAY_VIDEO (config self) = false ∨ key_q frame = false →
   (loop_body source self frame).2 = Continue).
Proof.
  intros HN.
  destruct (loop_body_cases source self frame)
    as [[Hzero _]|[(_ & _ & ->)|(_ & _ & ->)]]; [done|done|].
  split.
  - intros e. by destruct (DISPLAY_VIDEO (config self) && key_q frame).
  - intros [-> | ->]; [done|]. by rewrite andb_false_r.
Qed.

(** With a non-zero skip interval the loop never raises; it reads every
    frame unless the preview window is on and ['q'] is pressed. *)
Lemma capture_loop_consumes (source : string) (stream : list Frame) (self : ObjectDetector) :
  FRAME_SKIP (config self) ≠ 0 →
  let run := capture_loop source self stream in
  run.2 = None ∧
  frame_count self ≤ frame_count run.1 ≤ frame_count self + Z.of_nat (length stream) ∧
  (DISPLAY_VIDEO (config self) = false ∨ Forall (λ f, key_q f = false) stream →
   frame_count run.1 = frame_count self + Z.of_nat (length stream)).
Proof.
  revert self. induction stream as [|frame rest IH]; intros self HN;
    cbn [capture_loop].
  { split; [done|]. simpl. split; lia. }
  rewrite length_cons, Nat2Z.inj_succ.
  destruct (loop_body_fields source self frame) as (Hcfg & _ & Hraw & _).
  destruct (loop_body_flow source self frame HN) as [Hraise Hcont].
  destruct (loop_body source self frame) as [self' flow]; cbn [fst snd] in *.
  destruct flow as [| |e]; [| |by destruct (Hraise e)].
  - rewrite <- Hcfg in HN. destruct (IH self' HN) as (Hnone & Hle & Hall).
    rewrite Hcfg in Hall.
    split; [done|]. split; [lia|].
    intros Hquiet.
    assert (Hrest : DISPLAY_VIDEO (config self) = false ∨
                    Forall (λ f, key_q f = false) rest).
    { destruct Hquiet as [?|Hkeys]; [by left|right]. by inversion Hkeys. }
    rewrite (Hall Hrest). lia.
  - cbn [fst snd]. split; [done|]. split; [lia|].
    intros [Hoff|Hkeys]; [by specialize (Hcont (or_introl Hoff))|].
    inversion Hkeys as [|? ? Hkey ?]; subst. by specialize (Hcont (or_intror Hkey)).
Qed.

Lemma process_video_result (self : ObjectDetector) (source : string) (cap : VideoCapture) :
  FRAME_SKIP (config self) ≠ 0 →
  let run := process_video self source cap in
  run.2 = None ∧
  frame_count self ≤ frame_count run.1 ≤ frame_count self + Z.of_nat (length (frames cap)) ∧
  (isOpened cap = true →
   DISPLAY_VIDEO (config self) = false ∨ Forall (λ f, key_q f = false) (frames cap) →
   frame_count run.1 = frame_count self + Z.of_nat (length (frames cap))).
Proof.
  intros HN. unfold process_video.
  destruct (isOpened cap); cbn [fst snd].
  - pose proof (capture_loop_consumes source (frames cap)
      (print self [VideoHeader source (FRAME_SKIP (config self))
                               (CONFIDENCE_THRESHOLD (config self))]) HN) as Hloop.
    destruct (capture_loop _ _ _) as [self' raised]. cbn [fst snd] in *.
    destruct Hloop as (-> & Hle & Hall). simpl in *. auto.
  - simpl. split; [done|]. split; [lia|done].
Qed.

(** C2. With skip interval [N ≥ 1] and a detector started by [__init__]
    (both counters at 0), [process_video] ends without raising; the raw
    counter is the number of frames read (all of them unless the preview
    is interrupted); a frame is processed, that is, gets its per-frame
    line, exactly when its raw index is a multiple of [N]; and the
    processed counter after the [K] qualifying frames read is [K]: the
    [k]-th per-frame line carries raw index [k * N] and processed count
    [k]. *)
Theorem frame_cadence (cfg : Config) (yolo : YOLO) (server : MongoDB)
    (source : string) (cap : VideoCapture) :
  1 ≤ FRAME_SKIP cfg →
  let N := FRAME_SKIP cfg in
  let run := process_video (__init__ cfg yolo server) source cap in
  let n := frame_count run.1 in
  run.2 = None ∧
  0 ≤ n ≤ Z.of_nat (length (frames cap)) ∧
  (isOpened cap = true →
   DISPLAY_VIDEO cfg = false ∨ Forall (λ f, key_q f = false) (frames cap) →
   n = Z.of_nat (length (frames cap))) ∧
  processed_frames run.1 = n `div` N ∧
  processed_log (stdout run.1) = (λ k, (k * N, k)) <$> seqZ 1 (n `div` N) ∧
  (∀ i, 1 ≤ i ≤ n →
     (∃ k, (i, k) ∈ processed_log (stdout run.1)) ↔ i `mod` N = 0).
Proof.
  intros HN N run n.
  destruct (init_fields cfg yolo server) as (Hcfg & _ & _ & Hraw0 & Hproc0 & Hlog0 & _).
  set (self := __init__ cfg yolo server) in *.
  assert (Hinit : cadence_ok N self).
  { unfold cadence_ok. rewrite Hraw0, Hproc0, Hlog0. done. }
  assert (Hok : cadence_ok N run.1 ∧ config run.1 = cfg).
  { apply (process_video_preserves (λ s, cadence_ok N s ∧ config s = cfg)).
    - intros s lines Hlines [? ?]. split; [|done]. by apply cadence_ok_print.
    - intros s frame [Hs Hc]. split.
      + subst N. rewrite <- Hc in *. by apply cadence_step.
      + rewrite <- Hc. apply loop_body_fields.
    - done. }
  destruct Hok as [(Hraw & Hproc & Hlog) _].
  assert (Hskip : FRAME_SKIP (config self) ≠ 0) by (rewrite Hcfg; lia).
  destruct (process_video_result self source cap Hskip) as (Hnone & Hle & Hall).
  rewrite Hraw0, Hcfg in *.
  split; [done|]. split; [done|]. split; [done|]. split; [done|]. split; [done|].
  intros i Hi. fold run n N in Hlog |- *. rewrite Hlog. split.
  - intros [k Hin]. apply list_elem_of_fmap in Hin as (k' & Heq & _).
    injection Heq as -> ->. apply Z.mod_mul. lia.
  - intros Hmod. exists (i `div` N).
    pose proof (Z.div_mod i N ltac:(lia)) as Hdm. rewrite Hmod in Hdm.
    apply list_elem_of_fmap. exists (i `div` N). split; [f_equal; lia|].
    apply elem_of_seqZ.
    pose proof (Z.div_le_mono i n N ltac:(lia) ltac:(lia)). nia.
Qed.

Lemma frame_cadence_witness :
  1 ≤ FRAME_SKIP (sample_config 2 []) ∧
  let run := process_video (__init__ (sample_config 2 []) coco (empty_server []))
                           "sample.mp4" sample_capture in
  run.2 = None ∧
  processed_frames run.1 = frame_count run.1 `div` 2 ∧
  processed_log (stdout run.1) = (λ k, (k * 2, k)) <$> seqZ 1 (frame_count run.1 `div` 2).
Proof.
  assert (Hskip : 1 ≤ FRAME_SKIP (sample_config 2 [])) by (simpl; lia).
  split; [exact Hskip|].
  pose proof (frame_cadence (sample_config 2 []) coco (empty_server [])
                            "sample.mp4" sample_capture Hskip) as H.
  cbv zeta in H. destruct H as (Hnone & _ & _ & Hproc & Hlog & _).
  exact (conj Hnone (conj Hproc Hlog)).
Defined.

Example frame_cadence_sample :
  let run := process_video (__init__ (sample_config 2 []) coco (empty_server []))
                           "sample.mp4" sample_capture in
  frame_count run.1 = 4 ∧ processed_frames run.1 = 2 ∧
  processed_log (stdout run.1) = [(2, 1); (4, 2)].
Proof. vm_compute. done. Qed.

(** ** One frame's tallies and detection list (lines 68-97) *)

Lemma count_class_snoc (c : string) (ds : list Detection) (d : Detection) :
  count_class c (ds ++ [d]) =
  (count_class c ds + if decide (class_name d = c) then 1 else 0)%nat.
Proof.
  unfold count_class. rewrite filter_app, length_app. f_equal.
  rewrite filter_cons, filter_nil. by destruct (decide (class_name d = c)).
Qed.

Lemma sum_values_insert (counts : gmap string nat) (k : string) (n : nat) :
  (sum_values (<[k := n]> counts) + counts !!! k = n + sum_values counts)%nat.
Proof.
  unfold sum_values. rewrite lookup_total_alt.
  destruct (counts !! k) as [old|] eqn:Hk; simpl.
  - rewrite <- (insert_delete_eq counts k n).
    rewrite map_fold_insert_L; [|intros; lia|apply lookup_delete_eq].
    rewrite <- (insert_delete_id counts k old Hk) at 2.
    rewrite map_fold_insert_L; [|intros; lia|apply lookup_delete_eq]. lia.
  - rewrite map_fold_insert_L; [lia|intros; lia|done].
Qed.

Lemma box_iterations_spec (config : Config) (model : YOLO) (boxes : list Box)
    (frame_counts : gmap string nat) (detections_list : list Detection) :
  (∀ c, frame_counts !! c = tally_of c detections_list) →
  sum_values frame_counts = length detections_list →
  let out := foldl (box_iteration config model) (frame_counts, detections_list) boxes in
  out.2 = detections_list ++
          (detection_data model <$>
             filter (λ b, filtered_out config (names model (cls b)) = false) boxes) ∧
  (∀ c, out.1 !! c = tally_of c out.2) ∧
  sum_values out.1 = length out.2.
Proof.
  revert frame_counts detections_list.
  induction boxes as [|box rest IH]; intros frame_counts detections_list Htally Hsum.
  { simpl. rewrite app_nil_r. done. }
  cbn zeta. cbn [foldl]. rewrite filter_cons.
  assert (Hstep : box_iteration config model (frame_counts, detections_list) box =
    if filtered_out config (names model (cls box)) then (frame_counts, detections_list)
    else (<[names model (cls box) := S (frame_counts !!! names model (cls box))]> frame_counts,
          detections_list ++ [detection_data model box])) by reflexivity.
  rewrite Hstep. clear Hstep.
  destruct (filtered_out config (names model (cls box))) eqn:Hout.
  - rewrite decide_False by done. by apply IH.
  - rewrite decide_True by done. rewrite fmap_cons.
    set (name := names model (cls box)) in *.
    destruct (IH (<[name := S (frame_counts !!! name)]> frame_counts)
                 (detections_list ++ [detection_data model box])) as (Hds & Hfc & Hlen).
    + intros c. unfold tally_of. rewrite count_class_snoc.
      assert (Hname : class_name (detection_data model box) = name).
      { unfold detection_data. by destruct (xyxy box) as [[[? ?] ?] ?]. }
      rewrite Hname.
      destruct (decide (name = c)) as [<-|Hne].
      * rewrite lookup_insert_eq, lookup_total_alt, Htally. unfold tally_of.
        destruct (count_class name detections_list); simpl; f_equal; lia.
      * rewrite lookup_insert_ne by done. rewrite Htally, Nat.add_0_r. done.
    + pose proof (sum_values_insert frame_counts name (S (frame_counts !!! name))) as Hins.
      rewrite length_app. simpl. lia.
    + split; [|done]. rewrite Hds, <- app_assoc. done.
Qed.

Lemma collect_detections_spec (config : Config) (model : YOLO) (results : list (list Box)) :
  let out := collect_detections config model results in
  out.2 = detection_data model <$>
            filter (λ b, filtered_out config (names model (cls b)) = false) (concat results) ∧
  (∀ c, out.1 !! c = tally_of c out.2) ∧
  sum_values out.1 = length out.2.
Proof.
  unfold collect_detections.
  apply (box_iterations_spec config model (concat results) ∅ []); [|done].
  intros c. by rewrite lookup_empty.
Qed.

(** ** What a run writes to the store *)

Lemma stored_print (self : ObjectDetector) (lines : list Output) :
  stored (print self lines) = stored self.
Proof. done. Qed.

Lemma save_stored (self : ObjectDetector) (ds : list Detection)
    (counts : gmap string nat) (source : string) (now : datetime) :
  let self' := _save_to_mongodb self ds counts source now in
  stored self' = stored self ∨
  ∃ doc, stored self' = stored self ++ [doc] ∧
         timestamp doc = now ∧ video_source doc = source ∧
         frame_number doc = frame_count self ∧
         processed_frame_number doc = processed_frames self ∧
         total_objects_detected doc = length ds ∧
         object_counts doc = counts ∧ detections doc = ds.
Proof.
  unfold _save_to_mongodb, stored.
  destruct (db self) as [handle|] eqn:Hdb; [|left; simpl; by rewrite Hdb].
  unfold insert_detection, driver_call.
  destruct (faults handle) as [|[] rest]; simpl; [right|by left|right];
    (eexists; split_and!; reflexivity).
Qed.

(** One iteration appends at most one document, built from its frame and
    numbered with the two counters as they stand after the increments. *)
Lemma loop_body_stored (source : string) (self : ObjectDetector) (frame : Frame) :
  let self' := (loop_body source self frame).1 in
  stored self' = stored self ∨
  ∃ doc, stored self' = stored self ++ [doc] ∧
         persisted_from (config self) (model self) source [frame] doc ∧
         frame_number doc = frame_count self + 1 ∧
         processed_frame_number doc = processed_frames self + 1 ∧
         (frame_count self + 1) `mod` FRAME_SKIP (config self) = 0.
Proof.
  destruct (loop_body_cases source self frame)
    as [[_ ->]|[(_ & _ & ->)|(_ & Hmod & ->)]]; [by left|by left|].
  set (snapshot := collect_detections _ _ _).
  set (counted := set_counters _ _ _ _).
  assert (Hst : ∀ s, stored (if DISPLAY_VIDEO (config self) && key_q frame
                         then (print (_display_counts s snapshot.1) [StoppingDetection], Break)
                         else (_display_counts s snapshot.1, Continue)).1 = stored s).
  { intros s. by destruct (DISPLAY_VIDEO (config self) && key_q frame). }
  cbv zeta. rewrite Hst. clear Hst.
  destruct (db self) as [handle|] eqn:Hdb; [|by left].
  destruct (snapshot.2) as [|d ds] eqn:Hds; [by left|].
  destruct (save_stored counted (d :: ds) snapshot.1 source (utcnow frame))
    as [Hsame|(doc & Happ & Hts & Hsrc & Hfn & Hpn & Htot & Hoc & Hdet)]; [by left|].
  right. exists doc. split; [done|]. split; [|done].
  exists frame. split; [by apply list_elem_of_singleton|].
  fold snapshot. rewrite Hoc, Hdet, Htot, Hds. done.
Qed.

Lemma persisted_from_mono (config : Config) (model : YOLO) (source : string)
    (stream stream' : list Frame) (doc : Document) :
  stream ⊆ stream' →
  persisted_from config model source stream doc →
  persisted_from config model source stream' doc.
Proof. intros Hsub (frame & Hin & H). exists frame. split; [by apply Hsub|done]. Qed.

Lemma capture_loop_stored (source : string) (stream : list Frame) (self : ObjectDetector) :
  ∃ new, stored (capture_loop source self stream).1 = stored self ++ new ∧
         Forall (persisted_from (config self) (model self) source stream) new.
Proof.
  revert self. induction stream as [|frame rest IH]; intros self; cbn [capture_loop].
  { exists []. by rewrite app_nil_r. }
  destruct (loop_body_fields source self frame) as (Hcfg & Hmodel & _ & _).
  pose proof (loop_body_stored source self frame) as Hstep.
  destruct (loop_body source self frame) as [self' flow]; cbn [fst snd] in *.
  assert (Hfirst : ∃ new, stored self' = stored self ++ new ∧
            Forall (persisted_from (config self) (model self) source (frame :: rest)) new).
  { destruct Hstep as [->|(doc & -> & Hdoc & _)].
    - exists []. by rewrite app_nil_r.
    - exists [doc]. split; [done|]. constructor; [|done].
      eapply persisted_from_mono; [|done].
      intros x ->%list_elem_of_singleton. apply elem_of_cons. by left. }
  destruct flow as [| |e]; [|done|done].
  destruct Hfirst as (new1 & Hst1 & Hall1).
  destruct (IH self') as (new2 & Hst2 & Hall2).
  exists (new1 ++ new2). rewrite Hst2, Hst1, app_assoc. split; [done|].
  apply Forall_app. split; [done|].
  rewrite Hcfg, Hmodel in Hall2.
  eapply Forall_impl; [done|]. intros doc. apply persisted_from_mono.
  intros x Hx. apply elem_of_cons. by right.
Qed.

(** Every document a run of [process_video] adds to the store comes from
    one of the frames of the capture. *)
Lemma process_video_stored (self : ObjectDetector) (source : string) (cap : VideoCapture) :
  ∃ new, stored (process_video self source cap).1 = stored self ++ new ∧
         Forall (persisted_from (config self) (model self) source (frames cap)) new.
Proof.
  unfold process_video. destruct (isOpened cap); cbn [fst].
  - destruct (capture_loop_stored source (frames cap)
        (print self [VideoHeader source (FRAME_SKIP (config self))
                                 (CONFIDENCE_THRESHOLD (config self))]))
      as (new & Hst & Hall).
    destruct (capture_loop _ _ _) as [self' raised]. exists new. done.
  - exists []. by rewrite app_nil_r.
Qed.

(** ** Class filter *)

Lemma filtered_out_spec (config : Config) (name : string) :
  filtered_out config name = true ↔
  TARGET_CLASSES config ≠ [] ∧ name ∉ TARGET_CLASSES config.
Proof.
  unfold filtered_out. rewrite andb_true_iff, !bool_decide_eq_true. done.
Qed.

Lemma class_name_detection_data (model : YOLO) (box : Box) :
  class_name (detection_data model box) = names model (cls box).
Proof. unfold detection_data. by destruct (xyxy box) as [[[? ?] ?] ?]. Qed.

Lemma count_class_zero (c : string) (ds : list Detection) :
  Forall (λ d, class_name d ≠ c) ds → count_class c ds = 0%nat.
Proof.
  unfold count_class. induction 1 as [|d ds Hd _ IH]; [done|].
  rewrite filter_cons, decide_False by done. exact IH.
Qed.

Lemma snapshot_excludes (config : Config) (model : YOLO) (results : list (list Box))
    (c : string) :
  TARGET_CLASSES config ≠ [] → c ∉ TARGET_CLASSES config →
  (collect_detections config model results).1 !! c = None ∧
  Forall (λ d, class_name d ≠ c) (collect_detections config model results).2.
Proof.
  intros Hnonempty Hout.
  destruct (collect_detections_spec config model results) as (Hds & Htally & _).
  assert (Hall : Forall (λ d, class_name d ≠ c) (collect_detections config model results).2).
  { rewrite Hds. apply Forall_fmap, Forall_forall. intros box Hbox.
    apply list_elem_of_filter in Hbox as [Hkept _]. simpl.
    rewrite class_name_detection_data. intros Heq. rewrite Heq in Hkept.
    assert (filtered_out config c = true) by by apply filtered_out_spec.
    congruence. }
  split; [|done].
  rewrite Htally. unfold tally_of. by rewrite count_class_zero.
Qed.

Lemma filter_keeps_all {A} (P : A → Prop) `{!∀ x, Decision (P x)} (l : list A) :
  (∀ x, P x) → filter P l = l.
Proof.
  intros Hall. induction l as [|x l IH]; [done|].
  rewrite filter_cons, decide_True by done. by rewrite IH.
Qed.

(** C3. With a non-empty class filter, a detection whose class is not in
    the filter is neither tallied in the frame's snapshot nor kept in the
    detection list, and so appears in no document the run stores; with an
    empty filter every detection of the frame is kept and tallied. *)
Theorem class_filter_exclusive (config0 : Config) (model0 : YOLO)
    (results0 : list (list Box)) (c : string)
    (self : ObjectDetector) (source : string) (cap : VideoCapture) :
  (TARGET_CLASSES config0 ≠ [] → c ∉ TARGET_CLASSES config0 →
     (collect_detections config0 model0 results0).1 !! c = None ∧
     Forall (λ d, class_name d ≠ c) (collect_detections config0 model0 results0).2) ∧
  (TARGET_CLASSES config0 = [] →
     (collect_detections config0 model0 results0).2
       = detection_data model0 <$> concat results0 ∧
     (collect_detections config0 model0 results0).1 !! c
       = tally_of c (detection_data model0 <$> concat results0)) ∧
  (TARGET_CLASSES (config self) ≠ [] → c ∉ TARGET_CLASSES (config self) →
     ∃ new, stored (process_video self source cap).1 = stored self ++ new ∧
            Forall (λ doc, object_counts doc !! c = None ∧
                           Forall (λ d, class_name d ≠ c) (detections doc)) new).
Proof.
  split; [|split].
  - apply snapshot_excludes.
  - intros Hempty.
    destruct (collect_detections_spec config0 model0 results0) as (Hds & Htally & _).
    assert (Hall : (collect_detections config0 model0 results0).2
                   = detection_data model0 <$> concat results0).
    { rewrite Hds. f_equal. apply filter_keeps_all. intros box.
      unfold filtered_out. rewrite Hempty. done. }
    split; [done|]. by rewrite Htally, Hall.
  - intros Hnonempty Hout.
    destruct (process_video_stored self source cap) as (new & Hst & Hall).
    exists new. split; [done|].
    eapply Forall_impl; [done|]. intros doc (frame & _ & -> & -> & _).
    by apply snapshot_excludes.
Qed.

Lemma class_filter_exclusive_witness :
  let filtering := sample_config 1 ["person"; "car"] in
  let boxes := [[sample_box 2 80; sample_box 22 60; sample_box 0 75]] in
  ((collect_detections filtering coco boxes).1 !! "zebra" = None ∧
   Forall (λ d, class_name d ≠ "zebra") (collect_detections filtering coco boxes).2) ∧
  (collect_detections (sample_config 1 []) coco boxes).2
    = detection_data coco <$> concat boxes.
Proof.
  intros filtering boxes.
  assert (Hnonempty : TARGET_CLASSES filtering ≠ []) by done.
  assert (Hout : "zebra" ∉ TARGET_CLASSES filtering) by compute_done.
  assert (Hempty : TARGET_CLASSES (sample_config 1 []) = []) by reflexivity.
  split.
  - exact (proj1 (class_filter_exclusive filtering coco boxes "zebra"
                    (__init__ filtering coco (empty_server [])) "sample.mp4" sample_capture)
                 Hnonempty Hout).
  - exact (proj1 (proj1 (proj2 (class_filter_exclusive (sample_config 1 []) coco boxes "zebra"
                    (__init__ filtering coco (empty_server [])) "sample.mp4" sample_capture))
                 Hempty)).
Defined.

(** C4. Every document stored by a run satisfies
    [len(detections) == sum(object_counts.values())]; so does every
    frame's snapshot, whatever the detections and the filter. *)
Theorem detections_length_is_count_sum (config0 : Config) (model0 : YOLO)
    (results0 : list (list Box))
    (self : ObjectDetector) (source : string) (cap : VideoCapture) :
  length (collect_detections config0 model0 results0).2
    = sum_values (collect_detections config0 model0 results0).1 ∧
  ∃ new, stored (process_video self source cap).1 = stored self ++ new ∧
         Forall (λ doc, length (detections doc) = sum_values (object_counts doc)) new.
Proof.
  split.
  - symmetry. apply collect_detections_spec.
  - destruct (process_video_stored self source cap) as (new & Hst & Hall).
    exists new. split; [done|].
    eapply Forall_impl; [done|]. intros doc (frame & _ & -> & -> & _).
    symmetry. apply collect_detections_spec.
Qed.

(** C10. In every document stored by a run, each key of [object_counts]
    has a value of at least 1, equal to the number of entries of
    [detections] bearing that class name; a class without a key has no
    entry; and [total_objects_detected] is the length of [detections]. *)
Theorem object_counts_are_positive_tallies (self : ObjectDetector) (source : string)
    (cap : VideoCapture) :
  ∃ new, stored (process_video self source cap).1 = stored self ++ new ∧
         Forall (λ doc,
           (∀ c n, object_counts doc !! c = Some n →
                   (1 ≤ n)%nat ∧ n = count_class c (detections doc)) ∧
           (∀ c, object_counts doc !! c = None → count_class c (detections doc) = 0%nat) ∧
           total_objects_detected doc = length (detections doc)) new.
Proof.
  destruct (process_video_stored self source cap) as (new & Hst & Hall).
  exists new. split; [done|].
  eapply Forall_impl; [done|]. intros doc (frame & _ & Hoc & Hdet & _ & Htotal & _).
  destruct (collect_detections_spec (config self) (model self) (results frame))
    as (_ & Htally & _).
  rewrite <- Hoc, <- Hdet in Htally.
  split; [|split; [|done]].
  - intros c n. rewrite Htally. unfold tally_of.
    destruct (count_class c (detections doc)); [done|]. intros [= <-]. split; [lia|done].
  - intros c. rewrite Htally. unfold tally_of.
    by destruct (count_class c (detections doc)).
Qed.

(** C9. A frame that passes the cadence gate but keeps no detection after
    filtering increments the processed counter and stores nothing: a
    document is stored only with a non-empty detection list. The stored
    [processed_frame_number]s can therefore skip values, as in the run
    over [gap_capture], which stores numbers 1 and 3. *)
Theorem empty_frame_not_persisted (source : string) (self : ObjectDetector)
    (frame : Frame) (cap : VideoCapture) :
  (FRAME_SKIP (config self) ≠ 0 →
   (frame_count self + 1) `mod` FRAME_SKIP (config self) = 0 →
   (collect_detections (config self) (model self) (results frame)).2 = [] →
   stored (loop_body source self frame).1 = stored self ∧
   processed_frames (loop_body source self frame).1 = processed_frames self + 1) ∧
  (∃ new, stored (process_video self source cap).1 = stored self ++ new ∧
          Forall (λ doc, detections doc ≠ []) new) ∧
  processed_frame_number <$>
    stored (process_video (__init__ (sample_config 1 []) coco (empty_server []))
                          "sample.mp4" gap_capture).1 = [1; 3].
Proof.
  split; [|split].
  - intros HN Hmod Hempty.
    destruct (loop_body_cases source self frame)
      as [[Hzero _]|[(_ & Hne & _)|(_ & _ & ->)]]; [done|done|].
    rewrite Hempty.
    assert (Hsaved : ∀ s : ObjectDetector,
              match db self with Some _ => s | None => s end = s)
      by (intros; by destruct (db self)).
    rewrite Hsaved.
    by destruct (DISPLAY_VIDEO (config self) && key_q frame).
  - destruct (process_video_stored self source cap) as (new & Hst & Hall).
    exists new. split; [done|].
    eapply Forall_impl; [done|]. by intros doc (frame' & _ & _ & _ & Hne & _).
  - vm_compute. reflexivity.
Qed.

Lemma empty_frame_not_persisted_witness :
  let self := __init__ (sample_config 1 []) coco (empty_server []) in
  let frame := sample_frame [] 2000 in
  stored (loop_body "sample.mp4" self frame).1 = stored self ∧
  processed_frames (loop_body "sample.mp4" self frame).1 = processed_frames self + 1.
Proof.
  intros self frame.
  assert (HN : FRAME_SKIP (config self) ≠ 0) by (vm_compute; discriminate).
  assert (Hmod : (frame_count self + 1) `mod` FRAME_SKIP (config self) = 0)
    by (vm_compute; reflexivity).
  assert (Hempty : (collect_detections (config self) (model self) (results frame)).2 = [])
    by (vm_compute; reflexivity).
  exact (proj1 (empty_frame_not_persisted "sample.mp4" self frame gap_capture)
               HN Hmod Hempty).
Defined.

(** ** Retention purge (database.py, [delete_old_detections]) *)

Lemma filter_complement_length {A} (P : A → Prop) `{!∀ x, Decision (P x)} (l : list A) :
  length l = (length (filter P l) + length (filter (λ x, ¬ P x) l))%nat.
Proof.
  induction l as [|x l IH]; [done|].
  rewrite !filter_cons. destruct (decide (P x)) as [HP|HP].
  - rewrite decide_False by tauto. simpl. lia.
  - rewrite decide_True by done. simpl. lia.
Qed.


(** C5. When the server answers and the cutoff [now - days] is a valid
    date, the purge returns normally; it removes exactly the stored events
    whose timestamp is strictly below the cutoff and keeps all others, in
    order and unchanged; an event stamped exactly at the cutoff survives;
    the returned count is the number of events removed. *)
Theorem purge_deletes_strictly_older (handle : MongoDB) (now : datetime) (days : Z) :
  (driver_call handle).1 = false →
  Z.abs days ≤ 999999999 →
  datetime_min ≤ now - days * 86400000 ≤ datetime_max →
  let cutoff := now - days * 86400000 in
  let run := delete_old_detections handle now days in
  collection run.1 = filter (λ d, ¬ timestamp d < cutoff) (collection handle) ∧
  run.2 = inr (length (filter (λ d, timestamp d < cutoff) (collection handle))) ∧
  (∀ doc, doc ∈ collection run.1 ↔ doc ∈ collection handle ∧ cutoff ≤ timestamp doc) ∧
  (∀ doc, doc ∈ collection handle → timestamp doc = cutoff → doc ∈ collection run.1) ∧
  (∀ deleted_count, run.2 = inr deleted_count →
     length (collection handle) = (deleted_count + length (collection run.1))%nat).
Proof.
  intros Hup Hdays Hrange cutoff run.
  assert (Hrun : run = ({| collection := filter (λ d, ¬ timestamp d < cutoff) (collection handle);
                           faults := faults (driver_call handle).2 |},
                        inr (length (filter (λ d, timestamp d < cutoff) (collection handle))))).
  { subst run. unfold delete_old_detections, timedelta, datetime_sub.
    rewrite decide_True by done. rewrite decide_True by done.
    unfold driver_call in *.
    destruct (faults handle) as [|[] rest]; simpl in *; done. }
  rewrite Hrun. cbn [fst snd collection].
  assert (Hmem : ∀ doc, doc ∈ filter (λ d, ¬ timestamp d < cutoff) (collection handle)
                        ↔ doc ∈ collection handle ∧ cutoff ≤ timestamp doc).
  { intros doc. rewrite list_elem_of_filter. split; intros [? ?]; split; try done; lia. }
  split; [done|]. split; [done|]. split; [done|]. split.
  - intros doc Hin Hts. apply Hmem. split; [done|lia].
  - intros deleted_count [= <-].
    apply (filter_complement_length (λ d, timestamp d < cutoff)).
Qed.

Lemma purge_deletes_strictly_older_witness :
  let run := delete_old_detections aged_server purge_now 7 in
  timestamp <$> collection run.1 = [purge_cutoff; purge_cutoff + 1] ∧
  run.2 = inr 1%nat.
Proof.
  assert (Hup : (driver_call aged_server).1 = false) by reflexivity.
  assert (Hdays : Z.abs 7 ≤ 999999999) by (vm_compute; discriminate).
  assert (Hrange : datetime_min ≤ purge_now - 7 * 86400000 ≤ datetime_max)
    by (split; vm_compute; discriminate).
  destruct (purge_deletes_strictly_older aged_server purge_now 7 Hup Hdays Hrange)
    as (Hkept & Hcount & _).
  cbv zeta. rewrite Hkept, Hcount. split; vm_compute; reflexivity.
Defined.

(** ** Confirmation before the purge (queary_db.py, option 6) *)

(** C8 as stated fails: [delete_old_detections] takes no confirmation, and
    called directly it deletes the event older than the cutoff. *)
Lemma purge_without_confirmation :
  confirmation_supplied ascii_text (DeleteOldDetections 7) = false ∧
  collection (purge ascii_text (DeleteOldDetections 7) aged_server purge_now)
    ≠ collection aged_server.
Proof.
  split; [reflexivity|].
  intros Heq. apply (f_equal length) in Heq. vm_compute in Heq. discriminate.
Qed.

(** C8, amended. On the menu path (option 6 of [main] in queary_db.py),
    unless the answer to the confirmation prompt is ['yes'] after
    [strip().lower()], the purge is not run: the store is left exactly as
    it was and the only output is the cancellation or the error line.
    [strip] and [lower] are the interpreter's, whatever they do with the
    text typed. *)
Theorem menu_purge_requires_yes (py : Builtins) (server : MongoDB) (now : datetime)
    (days_answer confirm_answer : string) :
  lower py (strip py confirm_answer) ≠ "yes" →
  (menu_cleanup py server now days_answer confirm_answer).1 = server ∧
  ((menu_cleanup py server now days_answer confirm_answer).2 = [CleanupCancelled] ∨
   (menu_cleanup py server now days_answer confirm_answer).2 = [ErrorLine ValueError]).
Proof.
  intros Hno. unfold menu_cleanup.
  destruct (decide (strip py days_answer = "")) as [Hdefault|Htyped].
  - rewrite decide_False by done. auto.
  - destruct (int py (strip py days_answer)) as [days|]; [|auto].
    rewrite decide_False by done. auto.
Qed.

Lemma menu_purge_requires_yes_witness :
  (menu_cleanup ascii_text aged_server purge_now "7" "no").1 = aged_server.
Proof.
  assert (Hno : lower ascii_text (strip ascii_text "no") ≠ "yes")
    by (vm_compute; discriminate).
  exact (proj1 (menu_purge_requires_yes ascii_text aged_server purge_now "7" "no" Hno)).
Defined.

(** With the answer ['yes'] the same path does delete. *)
Example menu_purge_with_yes :
  timestamp <$> collection (menu_cleanup ascii_text aged_server purge_now "" " YES ").1
    = [purge_cutoff; purge_cutoff + 1].
Proof. vm_compute. reflexivity. Qed.

(** ** Degraded mode: the pipeline without a working store *)

Lemma without_insert_errors_app (out1 out2 : list Output) :
  without_insert_errors (out1 ++ out2)
  = without_insert_errors out1 ++ without_insert_errors out2.
Proof. apply filter_app. Qed.

(** The state after an iteration that passes the cadence gate. *)
Lemma loop_body_processed (source : string) (self : ObjectDetector) (frame : Frame) :
  FRAME_SKIP (config self) ≠ 0 →
  (frame_count self + 1) `mod` FRAME_SKIP (config self) = 0 →
  let out := loop_body source self frame in
  let snapshot := collect_detections (config self) (model self) (results frame) in
  let stop := DISPLAY_VIDEO (config self) && key_q frame in
  config out.1 = config self ∧ model out.1 = model self ∧
  class_counts out.1 = update_total_counts (class_counts self) snapshot.1 ∧
  frame_count out.1 = frame_count self + 1 ∧
  processed_frames out.1 = processed_frames self + 1 ∧
  out.2 = (if stop then Break else Continue) ∧
  without_insert_errors (stdout out.1)
  = without_insert_errors (stdout self) ++
    FrameCounts (frame_count self + 1) (processed_frames self + 1)
                (sorted_items snapshot.1)
    :: (if stop then [StoppingDetection] else []).
Proof.
  intros HN Hmod out snapshot stop. subst out.
  destruct (loop_body_cases source self frame)
    as [[Hzero _]|[(_ & Hne & _)|(_ & _ & ->)]]; [done|done|].
  fold snapshot stop.
  set (counted := set_counters _ _ _ _).
  set (saved := match db self, snapshot.2 with
                | Some _, _ :: _ => _ | _, _ => counted end).
  assert (Hsaved : config saved = config self ∧ model saved = model self ∧
            class_counts saved = update_total_counts (class_counts self) snapshot.1 ∧
            frame_count saved = frame_count self + 1 ∧
            processed_frames saved = processed_frames self + 1 ∧
            without_insert_errors (stdout saved) = without_insert_errors (stdout self)).
  { subst saved. destruct (db self), (snapshot.2); try done.
    destruct (save_keeps_counters counted (d :: l) snapshot.1 source (utcnow frame))
      as (-> & -> & -> & -> & ->).
    destruct (save_stdout counted (d :: l) snapshot.1 source (utcnow frame))
      as (reports & -> & _ & Hrep).
    rewrite without_insert_errors_app, Hrep, app_nil_r. done. }
  destruct Hsaved as (Hc & Hm & Hcc & Hf & Hp & Hout).
  destruct stop; cbn [fst snd]; unfold _display_counts; simpl;
    rewrite ?without_insert_errors_app, Hout, ?Hf, ?Hp; simpl;
    rewrite <- ?app_assoc; done.
Qed.








(** The run with the unreachable server, and the run whose first insert
    fails: same counters and maxima; the second stores the two later
    events and prints one insert report. *)
Example degraded_run_sample :
  let run := process_video (__init__ (sample_config 1 []) coco unreachable_server)
                           "sample.mp4" sample_capture in
  let flaky := process_video (__init__ (sample_config 1 []) coco flaky_server)
                             "sample.mp4" sample_capture in
  (frame_count run.1, processed_frames run.1, sorted_items (class_counts run.1))
    = (4, 4, [("car", 2%nat); ("person", 1%nat); ("zebra", 1%nat)]) ∧
  stored run.1 = [] ∧
  (frame_count flaky.1, processed_frames flaky.1, class_counts flaky.1)
    = (frame_count run.1, processed_frames run.1, class_counts run.1) ∧
  processed_frame_number <$> stored flaky.1 = [2; 3] ∧
  filter (λ line, is_insert_error line = true) (stdout flaky.1)
    = [MongoInsertError (PyException "Failed to insert document")].
Proof. vm_compute. done. Qed.

(** ** Statistics by class (database.py, [get_object_statistics]) *)







Lemma group_stage_ids (engine : Engine) (ds : list Detection) :
  _id <$> group_stage engine ds = remove_dups (class_name <$> ds).
Proof.
  unfold group_stage.
  induction (remove_dups (class_name <$> ds)) as [|c cs IH]; [done|].
  rewrite !fmap_cons. by rewrite IH.
Qed.

Lemma StronglySorted_weaken {A : Type} (R R' : relation A) (l : list A) :
  (∀ x y, x ∈ l → y ∈ l → R x y → R' x y) →
  StronglySorted R l → StronglySorted R' l.
Proof.
  intros Himpl Hsorted. induction Hsorted as [|x l Hl IH Hx]; constructor.
  - apply IH. intros y z Hy Hz. apply Himpl; apply elem_of_cons; by right.
  - rewrite Forall_forall in *. intros y Hy.
    apply Himpl; [apply elem_of_cons; by left|apply elem_of_cons; by right|by apply Hx].
Qed.

Lemma count_desc_then_rank_count (engine : Engine) (r1 r2 : ClassStatistics) :
  count_desc_then_rank engine r1 r2 → count_desc r1 r2.
Proof. unfold count_desc_then_rank, count_desc. lia. Qed.

(** Whatever the server, the rows are the groups, in descending order of
    count. *)
Lemma aggregate_admissible (engine : Engine) (source : option string)
    (docs : list Document) :
  admissible_statistics engine source docs (aggregate engine source docs).
Proof.
  unfold aggregate, sort_stage. split; [apply merge_sort_Permutation|].
  eapply StronglySorted_weaken; [|apply StronglySorted_merge_sort; apply _].
  intros x y _ _. apply count_desc_then_rank_count.
Qed.

(** Conversely, every order of the groups that is descending in count is
    the answer of some server: the embedding leaves the order of tied
    rows entirely to the server. *)
Lemma position_inj (names : list string) (n m : string) :
  n ∈ names → m ∈ names → position n names = position m names → n = m.
Proof.
  induction names as [|first rest IH]; [by intros ?%elem_of_nil|].
  intros Hn Hm. simpl.
  destruct (decide (n = first)) as [->|Hn']; destruct (decide (m = first)) as [->|Hm'];
    try done.
  intros [= Heq]. apply IH; [| |done].
  - apply elem_of_cons in Hn as [?|?]; done.
  - apply elem_of_cons in Hm as [?|?]; done.
Qed.

Lemma NoDup_fmap_eq {A B : Type} (f : A → B) (l : list A) (x y : A) :
  NoDup (f <$> l) → x ∈ l → y ∈ l → f x = f y → x = y.
Proof.
  induction l as [|z l IH]; [by intros _ ?%elem_of_nil|].
  rewrite fmap_cons. intros [Hz Hl]%NoDup_cons Hx Hy Hf.
  apply elem_of_cons in Hx as [->|Hx]; apply elem_of_cons in Hy as [->|Hy].
  - done.
  - exfalso. apply Hz. rewrite Hf. by apply list_elem_of_fmap_2.
  - exfalso. apply Hz. rewrite <- Hf. by apply list_elem_of_fmap_2.
  - by apply IH.
Qed.

Lemma sorted_permutation_unique {A : Type} (R : relation A) (l1 l2 : list A) :
  (∀ x y, x ∈ l1 → y ∈ l1 → R x y → R y x → x = y) →
  StronglySorted R l1 → StronglySorted R l2 → l1 ≡ₚ l2 → l1 = l2.
Proof.
  revert l2. induction l1 as [|x l1 IH]; intros l2 Hanti H1 H2 Hperm.
  { by apply Permutation_nil_l in Hperm. }
  destruct l2 as [|y l2]; [by apply Permutation_nil_r in Hperm|].
  apply StronglySorted_inv in H1 as [H1 Hx]. apply StronglySorted_inv in H2 as [H2 Hy].
  rewrite Forall_forall in Hx, Hy.
  assert (Hxy : x = y).
  { assert (Hx2 : x ∈ y :: l2) by (rewrite <- Hperm; apply elem_of_cons; by left).
    assert (Hy1 : y ∈ x :: l1) by (rewrite Hperm; apply elem_of_cons; by left).
    apply elem_of_cons in Hx2 as [?|Hx2]; [done|].
    apply elem_of_cons in Hy1 as [?|Hy1]; [done|].
    apply Hanti; [apply elem_of_cons; by left|apply elem_of_cons; by right|auto|auto]. }
  subst y. f_equal. apply Permutation_cons_inv in Hperm.
  apply IH; try done.
  intros a b Ha Hb. apply Hanti; apply elem_of_cons; by right.
Qed.

Lemma sorted_by_position (engine : Engine) (rows : list ClassStatistics) :
  NoDup (_id <$> rows) → StronglySorted count_desc rows →
  StronglySorted (count_desc_then_rank (ranked_as engine rows)) rows.
Proof.
  induction rows as [|x rows IH]; [constructor|].
  rewrite fmap_cons. intros [Hx Hnodup]%NoDup_cons [Hsorted Hfirst]%StronglySorted_inv.
  constructor.
  - eapply StronglySorted_weaken; [|by apply IH].
    intros y z Hy Hz. unfold count_desc_then_rank, ranked_as. cbn [key_rank position fmap list_fmap].
    assert (Hne : ∀ r, r ∈ rows → _id r ≠ _id x).
    { intros r Hr Heq. apply Hx. rewrite <- Heq. by apply list_elem_of_fmap_2. }
    rewrite !decide_False by auto. lia.
  - rewrite Forall_forall in *. intros y Hy. specialize (Hfirst y Hy).
    unfold count_desc in Hfirst. unfold count_desc_then_rank, ranked_as.
    cbn [key_rank position fmap list_fmap]. rewrite decide_True by done. lia.
Qed.

Lemma any_admissible_order (engine : Engine) (source : option string)
    (docs : list Document) (rows : list ClassStatistics) :
  admissible_statistics engine source docs rows →
  aggregate (ranked_as engine rows) source docs = rows.
Proof.
  intros [Hperm Hsorted]. unfold aggregate, sort_stage.
  set (ds := unwind_stage (select_events source docs)) in *.
  change (group_stage (ranked_as engine rows) ds) with (group_stage engine ds).
  assert (Hnodup : NoDup (_id <$> rows)).
  { rewrite Hperm, group_stage_ids. apply NoDup_remove_dups. }
  symmetry. apply (sorted_permutation_unique (count_desc_then_rank (ranked_as engine rows))).
  - intros x y Hx Hy Hxy Hyx.
    apply (NoDup_fmap_eq _id rows); try done.
    apply (position_inj (_id <$> rows)); [by apply list_elem_of_fmap_2..|].
    unfold count_desc_then_rank, ranked_as in Hxy, Hyx. cbn [key_rank] in Hxy, Hyx. lia.
  - by apply sorted_by_position.
  - apply StronglySorted_merge_sort; apply _.
  - etrans; [exact Hperm|]. symmetry. apply merge_sort_Permutation.
Qed.




(** The rows computed on [statistics_server] by a server that brings
    ["apple"] out before ["zebra"]: class, count, smallest and largest
    confidence, as fractions. *)
Example statistics_sample :
  (λ r, (_id r, total_count r, this (min_confidence r), this (max_confidence r)))
    <$> aggregate (sample_engine ["apple"; "zebra"]) None (collection statistics_server)
  = [ ("car", 3%nat, 7 # 10, 19 # 20);
      ("apple", 1%nat, 3 # 5, 3 # 5);
      ("zebra", 1%nat, 4 # 5, 4 # 5) ]%Q.
Proof. vm_compute. reflexivity. Qed.

(** The order of the two tied rows is open: the result with them
    exchanged satisfies the pipeline as well, and is the answer of
    another server. *)
Example statistics_tie_order_open :
  ∃ a b c, aggregate (sample_engine []) None (collection statistics_server) = [a; b; c] ∧
           total_count b = total_count c ∧
           admissible_statistics (sample_engine []) None (collection statistics_server) [a; c; b] ∧
           aggregate (ranked_as (sample_engine []) [a; c; b]) None
                     (collection statistics_server) = [a; c; b].
Proof.
  pose proof (aggregate_admissible (sample_engine []) None (collection statistics_server))
    as Hadm.
  destruct (aggregate (sample_engine []) None (collection statistics_server))
    as [|a [|b [|c [|? ?]]]] eqn:Hrows;
    try (apply (f_equal length) in Hrows; vm_compute in Hrows; discriminate).
  exists a, b, c. split; [done|].
  assert (Hcounts : total_count <$> [a; b; c] = [3; 1; 1]%nat).
  { rewrite <- Hrows. vm_compute. reflexivity. }
  injection Hcounts as Ha Hb Hc.
  split; [congruence|].
  assert (Hswapped : admissible_statistics (sample_engine []) None
                       (collection statistics_server) [a; c; b]).
  { destruct Hadm as [Hperm _]. split.
    - rewrite <- Hperm. apply perm_skip, perm_swap.
    - repeat constructor; unfold count_desc; lia. }
  split; [done|]. by apply any_admissible_order.
Qed.

(** The documents stored by the run over [sample_capture] with a working
    store: list lengths and tallies. *)
Example stored_documents_sample :
  (λ doc, (processed_frame_number doc, total_objects_detected doc,
           length (detections doc), sum_values (object_counts doc),
           sorted_items (object_counts doc)))
    <$> stored (process_video (__init__ (sample_config 1 []) coco (empty_server []))
                              "sample.mp4" sample_capture).1
  = [ (1, 2%nat, 2%nat, 2%nat, [("car", 1%nat); ("person", 1%nat)]);
      (2, 1%nat, 1%nat, 1%nat, [("zebra", 1%nat)]);
      (3, 3%nat, 3%nat, 3%nat, [("car", 2%nat); ("zebra", 1%nat)]) ].
Proof. vm_compute. reflexivity. Qed.

(** * Further properties *)

(** ** config.py: parsing [TARGET_CLASSES] *)

Lemma ascii_rstrip_idemp (s : string) : ascii_rstrip (ascii_rstrip s) = ascii_rstrip s.
Proof.
  induction s as [|a rest IH]; [done|]. simpl.
  destruct (ascii_rstrip rest) as [|b kept] eqn:Hrest.
  - destruct (ascii_is_space a) eqn:Ha; [done|]. simpl. by rewrite Ha.
  - cbn [ascii_rstrip]. cbn [ascii_rstrip] in IH. by rewrite IH.
Qed.

Lemma ascii_lstrip_starts_clean (s : string) :
  match ascii_lstrip s with String a _ => ascii_is_space a = false | EmptyString => True end.
Proof.
  induction s as [|a rest IH]; [done|]. simpl.
  destruct (ascii_is_space a) eqn:Ha; [done|]. simpl. done.
Qed.

Lemma ascii_rstrip_head (a : Ascii.ascii) (rest : string) :
  ascii_is_space a = false → ascii_rstrip (String a rest) = String a (ascii_rstrip rest).
Proof. intros Ha. simpl. destruct (ascii_rstrip rest); [by rewrite Ha|done]. Qed.

Lemma ascii_strip_idemp (s : string) : ascii_strip (ascii_strip s) = ascii_strip s.
Proof.
  unfold ascii_strip. pose proof (ascii_lstrip_starts_clean s) as Hclean.
  destruct (ascii_lstrip s) as [|a rest]; [done|].
  rewrite (ascii_rstrip_head a rest Hclean). cbn [ascii_lstrip]. rewrite Hclean.
  rewrite (ascii_rstrip_head a _ Hclean). by rewrite ascii_rstrip_idemp.
Qed.

Lemma ascii_lstrip_comma_free (s : string) :
  contains_comma s = false → contains_comma (ascii_lstrip s) = false.
Proof.
  induction s as [|a rest IH]; [done|]. simpl. intros H.
  apply orb_false_iff in H as [Ha Hrest].
  destruct (ascii_is_space a); [by apply IH|]. simpl. by rewrite Ha, Hrest.
Qed.

Lemma ascii_rstrip_comma_free (s : string) :
  contains_comma s = false → contains_comma (ascii_rstrip s) = false.
Proof.
  induction s as [|a rest IH]; [done|]. simpl. intros H.
  apply orb_false_iff in H as [Ha Hrest]. specialize (IH Hrest).
  destruct (ascii_rstrip rest) as [|b kept].
  - destruct (ascii_is_space a); [done|]. simpl. by rewrite Ha.
  - simpl in *. by rewrite Ha, IH.
Qed.

Lemma split_comma_comma_free (s : string) :
  Forall (λ piece, contains_comma piece = false) (split_comma s).
Proof.
  induction s as [|a rest IH]; simpl; [by repeat constructor|].
  destruct (Ascii.eqb a ",") eqn:Ha; [by constructor|].
  destruct (split_comma rest) as [|piece pieces]; [repeat constructor; simpl; by rewrite Ha|].
  inversion IH as [|? ? Hpiece Hpieces]; subst.
  constructor; [|done]. simpl. by rewrite Ha, Hpiece.
Qed.

Lemma ascii_strip_comma_free (s : string) :
  contains_comma s = false → contains_comma (ascii_strip s) = false.
Proof. intros H. unfold ascii_strip. by apply ascii_rstrip_comma_free, ascii_lstrip_comma_free. Qed.

(** X1. Every class name parsed from [TARGET_CLASSES] is non-empty, is
    left as it is by [strip] (it has no white space at either end) and
    holds no comma, whatever the value of the variable. Of [str.strip]
    this uses that stripping twice is stripping once and that it adds no
    comma. *)
Theorem parsed_target_classes_clean (py : Builtins) (value : string) :
  strip_idempotent py → strip_adds_no_comma py →
  Forall (clean_name py) (parse_target_classes py value).
Proof.
  intros Hidem Hcomma.
  unfold parse_target_classes. destruct (decide (value = "")); [done|].
  apply Forall_forall. intros name Hin.
  apply list_elem_of_filter in Hin as [Hne Hin].
  apply list_elem_of_fmap in Hin as (piece & -> & Hpiece).
  split; [done|]. split; [apply Hidem|].
  pose proof (split_comma_comma_free value) as Hfree.
  rewrite Forall_forall in Hfree. specialize (Hfree piece Hpiece).
  by apply Hcomma.
Qed.

Lemma parsed_target_classes_clean_witness :
  parse_target_classes ascii_text " person,car ,, traffic light," =
    ["person"; "car"; "traffic light"] ∧
  Forall (clean_name ascii_text) (parse_target_classes ascii_text " person,car ,, traffic light,").
Proof.
  split; [vm_compute; reflexivity|].
  exact (parsed_target_classes_clean ascii_text " person,car ,, traffic light,"
           ascii_strip_idemp ascii_strip_comma_free).
Defined.

Lemma split_comma_single (name : string) :
  contains_comma name = false → split_comma name = [name].
Proof.
  induction name as [|a rest IH]; [done|]. simpl. intros H.
  apply orb_false_iff in H as [Ha Hrest]. by rewrite Ha, (IH Hrest).
Qed.

Lemma split_comma_append (name rest : string) :
  contains_comma name = false →
  split_comma (String.append name (String ","%char rest)) = name :: split_comma rest.
Proof.
  induction name as [|a name' IH]; [done|]. simpl. intros H.
  apply orb_false_iff in H as [Ha Hname]. by rewrite Ha, (IH Hname).
Qed.

Lemma split_comma_join (names : list string) :
  names ≠ [] → Forall (λ name, contains_comma name = false) names →
  split_comma (join_comma names) = names.
Proof.
  induction names as [|name rest IH]; [done|]. intros _ Hall.
  inversion Hall as [|? ? Hname Hrest]; subst.
  destruct rest as [|name' rest'].
  - by apply split_comma_single.
  - change (join_comma (name :: name' :: rest'))
      with (String.append name (String ","%char (join_comma (name' :: rest')))).
    rewrite split_comma_append by done. by rewrite IH.
Qed.

Lemma join_comma_empty (names : list string) :
  Forall (λ name, name ≠ "") names → join_comma names = "" → names = [].
Proof.
  destruct names as [|name rest]; [done|]. intros Hall Hjoin.
  inversion Hall as [|? ? Hname _]; subst.
  destruct rest; simpl in Hjoin; [done|]. by destruct name.
Qed.

(** X2. Parsing the comma-joined text of a list of clean class names
    (non-empty, left as they are by [strip], comma-free) gives back that
    list, in order. *)
Theorem parse_target_classes_join (py : Builtins) (names : list string) :
  Forall (clean_name py) names → parse_target_classes py (join_comma names) = names.
Proof.
  intros Hclean. unfold parse_target_classes.
  assert (Hne : Forall (λ name, name ≠ "") names)
    by (eapply Forall_impl; [exact Hclean|]; intros ? Hc; apply Hc).
  assert (Hfree : Forall (λ name, contains_comma name = false) names)
    by (eapply Forall_impl; [exact Hclean|]; intros ? Hc; apply Hc).
  destruct (decide (join_comma names = "")) as [Hempty|Hfilled].
  { symmetry. by apply join_comma_empty. }
  assert (Hnames : names ≠ []) by (intros ->; done).
  rewrite split_comma_join by done.
  assert (Hstrip : strip py <$> names = names).
  { clear -Hclean. induction Hclean as [|name rest Hname _ IH]; [done|].
    destruct Hname as (_ & Hs & _). rewrite fmap_cons, Hs, IH. done. }
  rewrite Hstrip. clear -Hne.
  induction Hne as [|name rest Hname _ IH]; [done|].
  rewrite filter_cons, decide_True by done. by rewrite IH.
Qed.

Lemma parse_target_classes_join_witness :
  parse_target_classes ascii_text (join_comma ["person"; "traffic light"; "car"])
  = ["person"; "traffic light"; "car"].
Proof.
  assert (Hclean : Forall (clean_name ascii_text) ["person"; "traffic light"; "car"]).
  { repeat constructor; try discriminate; vm_compute; reflexivity. }
  exact (parse_target_classes_join ascii_text ["person"; "traffic light"; "car"] Hclean).
Defined.

(** ** database.py: the [find] queries *)

Lemma driver_call_collection (db : MongoDB) :
  collection (driver_call db).2 = collection db.
Proof. unfold driver_call. by destruct (faults db). Qed.

Lemma sort_timestamp_desc_spec (docs : list Document) :
  sort_timestamp_desc docs ≡ₚ docs ∧ StronglySorted newest_first (sort_timestamp_desc docs).
Proof.
  split; [apply merge_sort_Permutation|].
  apply StronglySorted_merge_sort; apply _.
Qed.

(** X3. When the server answers, the time-range query returns exactly the
    stored events stamped between the two bounds, both included, and of
    the given source when one is given (an empty source string selects
    all sources); they come newest first; the store is not changed; a
    range whose end precedes its start finds nothing. *)
Theorem time_range_query (db : MongoDB) (start_time end_time : datetime)
    (source : option string) :
  (driver_call db).1 = false →
  ∃ found,
    (get_detections_by_time_range db start_time end_time source).2 = inr found ∧
    collection (get_detections_by_time_range db start_time end_time source).1
      = collection db ∧
    found ≡ₚ filter (in_time_range start_time end_time source) (collection db) ∧
    (∀ d, d ∈ found ↔
          d ∈ collection db ∧ start_time ≤ timestamp d ≤ end_time ∧
          (∀ s, source = Some s → s ≠ "" → video_source d = s)) ∧
    StronglySorted newest_first found ∧
    (end_time < start_time → found = []).
Proof.
  intros Hup. unfold get_detections_by_time_range.
  pose proof (driver_call_collection db) as Hcoll.
  destruct (driver_call db) as [failed db']; simpl in *; subst failed.
  rewrite Hcoll.
  destruct (sort_timestamp_desc_spec
              (filter (in_time_range start_time end_time source) (collection db)))
    as [Hperm Hsorted].
  eexists. split; [reflexivity|]. split; [done|]. split; [done|].
  assert (Hmem : ∀ d, d ∈ sort_timestamp_desc
                        (filter (in_time_range start_time end_time source) (collection db))
                 ↔ d ∈ collection db ∧ in_time_range start_time end_time source d).
  { intros d. rewrite Hperm, list_elem_of_filter. tauto. }
  split; [|split; [done|]].
  - intros d. rewrite Hmem. unfold in_time_range, given.
    destruct source as [s|]; [destruct (decide (s = "")) as [->|Hs]|].
    + split; intros (Hin & Hts & _); (split; [done|split; [done|]]); [|done].
      by intros s [= <-].
    + split; intros (Hin & Hts & Hsrc); (split; [done|split; [done|]]).
      * by intros s' [= <-].
      * by apply Hsrc.
    + split; intros (Hin & Hts & _); (split; [done|split; [done|]]); done.
  - intros Hempty.
    destruct (sort_timestamp_desc _) as [|d rest] eqn:Hfound; [done|].
    assert (Hd : d ∈ d :: rest) by (apply elem_of_cons; by left).
    apply Hmem in Hd as (_ & [? ?] & _). lia.
Qed.

Lemma time_range_query_witness :
  ∃ found,
    (get_detections_by_time_range aged_server purge_cutoff (purge_cutoff + 1) None).2
      = inr found ∧
    StronglySorted newest_first found.
Proof.
  assert (Hup : (driver_call aged_server).1 = false) by reflexivity.
  destruct (time_range_query aged_server purge_cutoff (purge_cutoff + 1) None Hup)
    as (found & Hfound & _ & _ & _ & Hsorted & _).
  exact (ex_intro _ found (conj Hfound Hsorted)).
Defined.

Example time_range_sample :
  (λ r, match r with inr found => timestamp <$> found | inl _ => [] end)
    (get_detections_by_time_range aged_server purge_cutoff (purge_cutoff + 1) None).2
  = [purge_cutoff + 1; purge_cutoff].
Proof. vm_compute. reflexivity. Qed.

(** X4. When the server answers, the by-source query returns events of
    that source only, newest first; with a limit of [n > 0] it returns
    the [min n m] newest of the [m] stored events of the source (every
    event left out is at most as recent as every event returned), and
    with limit [0] all of them. *)
Theorem by_source_query (db : MongoDB) (source : string) (limit : nat) :
  (driver_call db).1 = false →
  ∃ found rest,
    (get_detections_by_source db source limit).2 = inr found ∧
    found ++ rest ≡ₚ filter (λ d, video_source d = source) (collection db) ∧
    Forall (λ d, video_source d = source) found ∧
    StronglySorted newest_first found ∧
    (∀ d d', d ∈ found → d' ∈ rest → timestamp d' ≤ timestamp d) ∧
    (limit = 0%nat → rest = []) ∧
    (limit ≠ 0%nat →
     length found
       = Nat.min limit (length (filter (λ d, video_source d = source) (collection db)))).
Proof.
  intros Hup. unfold get_detections_by_source.
  pose proof (driver_call_collection db) as Hcoll.
  destruct (driver_call db) as [failed db']; simpl in *; subst failed.
  rewrite Hcoll.
  set (matching := filter (λ d, video_source d = source) (collection db)).
  destruct (sort_timestamp_desc_spec matching) as [Hperm Hsorted].
  set (sorted := sort_timestamp_desc matching) in *.
  exists (limit_stage limit sorted),
         (match limit with O => [] | _ => drop limit sorted end).
  assert (Hsplit : limit_stage limit sorted
                   ++ (match limit with O => [] | _ => drop limit sorted end) = sorted).
  { unfold limit_stage. destruct limit; [apply app_nil_r|apply take_drop]. }
  split; [done|]. split; [by rewrite Hsplit|].
  rewrite <- Hsplit in Hsorted.
  apply StronglySorted_app in Hsorted as (Hcross & Hfound & _).
  split; [|split; [done|split; [|split]]].
  - apply Forall_forall. intros d Hd.
    assert (Hin : d ∈ sorted) by (rewrite <- Hsplit; apply elem_of_app; by left).
    rewrite Hperm in Hin. by apply list_elem_of_filter in Hin as [? _].
  - intros d d' Hd Hd'. by apply (Hcross d d').
  - by intros ->.
  - intros Hlimit. unfold limit_stage. destruct limit; [done|].
    rewrite length_take. f_equal. by rewrite Hperm.
Qed.

Lemma by_source_query_witness :
  ∃ found rest,
    (get_detections_by_source aged_server "sample.mp4" 2).2 = inr found ∧
    length found = 2%nat ∧ length rest = 1%nat ∧
    (∀ d d', d ∈ found → d' ∈ rest → timestamp d' ≤ timestamp d).
Proof.
  assert (Hup : (driver_call aged_server).1 = false) by reflexivity.
  destruct (by_source_query aged_server "sample.mp4" 2 Hup)
    as (found & rest & Hfound & Hperm & _ & _ & Hcross & _ & Hlen).
  exists found, rest. split; [exact Hfound|].
  assert (Hfound_len : length found = 2%nat) by (rewrite Hlen; [reflexivity|discriminate]).
  split; [exact Hfound_len|]. split; [|exact Hcross].
  apply Permutation_length in Hperm. rewrite length_app, Hfound_len in Hperm.
  replace (length (filter _ _)) with 3%nat in Hperm by (vm_compute; reflexivity).
  lia.
Defined.

(** ** database.py: how insert, purge and the queries compose *)

Lemma get_detections_by_time_range_up (db : MongoDB) (start_time end_time : datetime)
    (source : option string) :
  (driver_call db).1 = false →
  (get_detections_by_time_range db start_time end_time source).2
  = inr (sort_timestamp_desc
           (filter (in_time_range start_time end_time source) (collection db))).
Proof.
  intros Hup. unfold get_detections_by_time_range.
  pose proof (driver_call_collection db) as Hcoll.
  destruct (driver_call db) as [failed db']; simpl in *; subst failed. by rewrite Hcoll.
Qed.


Lemma delete_old_detections_up (db : MongoDB) (now : datetime) (days : Z) :
  (driver_call db).1 = false →
  Z.abs days ≤ 999999999 →
  datetime_min ≤ now - days * 86400000 ≤ datetime_max →
  collection (delete_old_detections db now days).1
    = filter (λ d, ¬ timestamp d < now - days * 86400000) (collection db) ∧
  (delete_old_detections db now days).2
    = inr (length (filter (λ d, timestamp d < now - days * 86400000) (collection db))).
Proof.
  intros Hup Hdays Hrange.
  unfold delete_old_detections, timedelta, datetime_sub.
  rewrite decide_True by done. rewrite decide_True by done.
  unfold driver_call in *.
  destruct (faults db) as [|[] rest]; simpl in *; done.
Qed.



Lemma filter_filter_none {A} (P : A → Prop) `{!∀ x, Decision (P x)} (l : list A) :
  filter P (filter (λ x, ¬ P x) l) = [].
Proof.
  induction l as [|x l IH]; [done|].
  rewrite filter_cons. destruct (decide (¬ P x)) as [Hx|Hx]; [|done].
  rewrite filter_cons, decide_False by done. exact IH.
Qed.

Lemma delete_old_detections_success (db : MongoDB) (now : datetime) (days : Z)
    (deleted_count : nat) :
  (delete_old_detections db now days).2 = inr deleted_count →
  Z.abs days ≤ 999999999 ∧
  datetime_min ≤ now - days * 86400000 ≤ datetime_max ∧
  (driver_call db).1 = false.
Proof.
  unfold delete_old_detections, timedelta, datetime_sub.
  destruct (decide (Z.abs days ≤ 999999999)); [|done].
  destruct (decide (datetime_min ≤ now - days * 86400000 ≤ datetime_max)); [|done].
  destruct (driver_call db) as [[] db']; [done|]. done.
Qed.

(** X6. The purge is idempotent: after a purge that returned normally, a
    second purge with the same clock reading and the same number of days
    deletes nothing, returns 0 and leaves the store unchanged. *)
Theorem purge_idempotent (db : MongoDB) (now : datetime) (days : Z) (deleted_count : nat) :
  (delete_old_detections db now days).2 = inr deleted_count →
  (driver_call (delete_old_detections db now days).1).1 = false →
  (delete_old_detections (delete_old_detections db now days).1 now days).2 = inr 0%nat ∧
  collection (delete_old_detections (delete_old_detections db now days).1 now days).1
    = collection (delete_old_detections db now days).1.
Proof.
  intros Hfirst Hup.
  destruct (delete_old_detections_success db now days deleted_count Hfirst)
    as (Hdays & Hrange & Hup0).
  destruct (delete_old_detections_up db now days Hup0 Hdays Hrange) as (Hkept & _).
  destruct (delete_old_detections_up _ now days Hup Hdays Hrange) as (Hkept' & Hcount').
  rewrite Hcount', Hkept', Hkept.
  rewrite filter_filter_none. split; [done|].
  apply list_filter_filter_l. tauto.
Qed.

Lemma purge_idempotent_witness :
  (delete_old_detections (delete_old_detections aged_server purge_now 7).1 purge_now 7).2
    = inr 0%nat.
Proof.
  assert (Hfirst : (delete_old_detections aged_server purge_now 7).2 = inr 1%nat)
    by (vm_compute; reflexivity).
  assert (Hup : (driver_call (delete_old_detections aged_server purge_now 7).1).1 = false)
    by (vm_compute; reflexivity).
  exact (proj1 (purge_idempotent aged_server purge_now 7 1 Hfirst Hup)).
Defined.

(** X7. After a purge that returned normally, no query returns an event
    older than the cutoff [now - days]: every event the time-range query
    finds, for any bounds and source, is stamped at or after the cutoff. *)
Theorem purged_events_not_found (db : MongoDB) (now : datetime) (days : Z)
    (deleted_count : nat) (start_time end_time : datetime) (source : option string) :
  (delete_old_detections db now days).2 = inr deleted_count →
  (driver_call (delete_old_detections db now days).1).1 = false →
  ∃ found,
    (get_detections_by_time_range (delete_old_detections db now days).1
       start_time end_time source).2 = inr found ∧
    Forall (λ d, now - days * 86400000 ≤ timestamp d) found ∧
    (end_time < now - days * 86400000 → found = []).
Proof.
  intros Hfirst Hup.
  destruct (delete_old_detections_success db now days deleted_count Hfirst)
    as (Hdays & Hrange & Hup0).
  destruct (delete_old_detections_up db now days Hup0 Hdays Hrange) as (Hkept & _).
  eexists. split; [by apply get_detections_by_time_range_up|].
  assert (Hall : Forall (λ d, now - days * 86400000 ≤ timestamp d)
            (sort_timestamp_desc
               (filter (in_time_range start_time end_time source)
                  (collection (delete_old_detections db now days).1)))).
  { apply Forall_forall. intros d Hd.
    rewrite (proj1 (sort_timestamp_desc_spec _)), Hkept in Hd.
    apply list_elem_of_filter in Hd as [_ Hd].
    apply list_elem_of_filter in Hd as [Hd _]. simpl in Hd. lia. }
  split; [done|]. intros Hbefore.
  destruct (sort_timestamp_desc _) as [|d rest] eqn:Hfound; [done|].
  assert (Hd : d ∈ d :: rest) by (apply elem_of_cons; by left).
  pose proof (proj1 (Forall_forall _ _) Hall d Hd) as Hts. simpl in Hts.
  rewrite <- Hfound, (proj1 (sort_timestamp_desc_spec _)) in Hd.
  apply list_elem_of_filter in Hd as [[[? ?] _] _]. lia.
Qed.

Lemma purged_events_not_found_witness :
  ∃ found,
    (get_detections_by_time_range (delete_old_detections aged_server purge_now 7).1
       0 (purge_cutoff - 1) None).2 = inr found ∧
    found = [].
Proof.
  assert (Hfirst : (delete_old_detections aged_server purge_now 7).2 = inr 1%nat)
    by (vm_compute; reflexivity).
  assert (Hup : (driver_call (delete_old_detections aged_server purge_now 7).1).1 = false)
    by (vm_compute; reflexivity).
  destruct (purged_events_not_found aged_server purge_now 7 1 0 (purge_cutoff - 1) None
              Hfirst Hup) as (found & Hfound & _ & Hnone).
  exists found. split; [exact Hfound|]. apply Hnone. vm_compute. reflexivity.
Defined.

(** ** queary_db.py: aggregated counts of the time-range report *)

Lemma add_object_counts_lookup (total_objects counts : gmap string nat) (c : string) :
  add_object_counts total_objects counts !! c =
  match counts !! c with
  | Some count => Some (default 0%nat (total_objects !! c) + count)%nat
  | None => total_objects !! c
  end.
Proof.
  unfold add_object_counts. revert c.
  apply (map_fold_weak_ind (λ acc (m : gmap string nat), ∀ c : string,
    acc !! c = match m !! c with
               | Some count => Some (default 0%nat (total_objects !! c) + count)%nat
               | None => total_objects !! c
               end)).
  - intros c. by rewrite lookup_empty.
  - intros i x m acc Hfresh IH c.
    destruct (decide (i = c)) as [->|Hne].
    + rewrite !lookup_insert_eq. by rewrite IH, Hfresh.
    + rewrite !lookup_insert_ne by done. apply IH.
Qed.

Lemma fold_add_object_counts (listed : list Document) (total_objects : gmap string nat)
    (c : string) :
  let result := foldl (λ acc det, add_object_counts acc (object_counts det))
                      total_objects listed in
  result !!! c
    = (total_objects !!! c + sum_list_with (λ d, object_counts d !!! c) listed)%nat ∧
  (result !! c = None ↔
   total_objects !! c = None ∧ Forall (λ d, object_counts d !! c = None) listed).
Proof.
  revert total_objects. induction listed as [|det rest IH]; intros total_objects; simpl.
  { split; [lia|]. split; [by intros ?|by intros [? _]]. }
  destruct (IH (add_object_counts total_objects (object_counts det))) as [Hsum Hnone].
  pose proof (add_object_counts_lookup total_objects (object_counts det) c) as Hstep.
  split.
  - rewrite Hsum. rewrite !lookup_total_alt, Hstep.
    destruct (object_counts det !! c); simpl; lia.
  - rewrite Hnone, Hstep, Forall_cons.
    destruct (object_counts det !! c) eqn:Hc; [|tauto].
    split; [by intros [? _]|]. by intros (_ & ? & _).
Qed.

(** X8. The aggregated count the time-range report gives for a class is
    the sum, over the listed events, of the event's [object_counts] entry
    for that class (0 when the event has none); a class appears in the
    report exactly when some listed event has an entry for it. *)
Theorem aggregated_counts_are_sums (listed : list Document) (c : string) :
  aggregate_object_counts listed !!! c
    = sum_list_with (λ d, object_counts d !!! c) listed ∧
  (is_Some (aggregate_object_counts listed !! c) ↔
   Exists (λ d, is_Some (object_counts d !! c)) listed).
Proof.
  destruct (fold_add_object_counts listed ∅ c) as [Hsum Hnone].
  unfold aggregate_object_counts. cbv zeta in *.
  split; [by rewrite Hsum, lookup_total_empty|].
  rewrite <- not_eq_None_Some, Hnone, lookup_empty. split.
  - intros Hnot.
    assert (Hsome : ¬ Forall (λ d, object_counts d !! c = None) listed) by tauto.
    apply not_Forall_Exists in Hsome; [|apply _].
    eapply Exists_impl; [done|]. intros d Hd. by apply not_eq_None_Some.
  - intros Hex [_ Hall]. apply Exists_exists in Hex as (d & Hd & Hsome).
    rewrite Forall_forall in Hall. rewrite (Hall d Hd) in Hsome. by destruct Hsome.
Qed.

(** ** The two count views on a store written by the detector *)

Lemma create_index_calls_collection (n : nat) (db : MongoDB) :
  collection (create_index_calls n db).1 = collection db.
Proof.
  revert db. induction n as [|n IH]; intros db; simpl; [done|].
  pose proof (driver_call_collection db) as Hcoll.
  destruct (driver_call db) as [[] db']; simpl in *; [done|]. by rewrite IH.
Qed.

Lemma connect_collection (server : MongoDB) :
  collection (_connect server).1.1 = collection server.
Proof.
  unfold _connect, _create_indexes.
  pose proof (driver_call_collection server) as Hcoll.
  destruct (driver_call server) as [[] db]; cbn [fst snd] in *; [done|].
  pose proof (create_index_calls_collection 4 db) as Hidx.
  destruct (create_index_calls 4 db) as [db' out]; cbn [fst snd] in *. congruence.
Qed.

Lemma init_stored (cfg : Config) (yolo : YOLO) (server : MongoDB) :
  stored (__init__ cfg yolo server) = [] ∨
  stored (__init__ cfg yolo server) = collection server.
Proof.
  unfold __init__, stored. destruct (ENABLE_MONGODB cfg); [|by left].
  pose proof (connect_collection server) as Hcoll.
  destruct (_connect server) as [[handle warnings] [e|[]]]; simpl in *; auto.
Qed.

Lemma count_class_concat (c : string) (docs : list Document) :
  count_class c (unwind_stage docs)
  = sum_list_with (λ d, count_class c (detections d)) docs.
Proof.
  unfold unwind_stage, count_class.
  induction docs as [|d rest IH]; [done|].
  rewrite fmap_cons. simpl. rewrite filter_app, length_app, IH. done.
Qed.

Lemma persisted_from_tallied (config : Config) (model : YOLO) (source : string)
    (stream : list Frame) (doc : Document) (c : string) :
  persisted_from config model source stream doc →
  object_counts doc !!! c = count_class c (detections doc).
Proof.
  intros (frame & _ & Hoc & Hdet & _).
  destruct (collect_detections_spec config model (results frame)) as (_ & Htally & _).
  rewrite lookup_total_alt, Hoc, Hdet, Htally. unfold tally_of.
  by destruct (count_class c _).
Qed.

(** X9. On a store that was empty before [main] ran, the two reports
    agree: the aggregated count of a class over all stored events equals
    the number of stored detections of that class, which is the
    [total_count] of the class's row in the statistics by class. *)
Theorem count_views_agree (cfg : Config) (yolo : YOLO) (server : MongoDB)
    (cap : VideoCapture) (engine : Engine) (c : string) :
  collection server = [] →
  let docs := stored (main cfg yolo server cap).1 in
  aggregate_object_counts docs !!! c = count_class c (unwind_stage docs) ∧
  (∀ row, row ∈ aggregate engine None docs →
          total_count row = aggregate_object_counts docs !!! _id row).
Proof.
  intros Hempty docs.
  assert (Hall : ∀ k, aggregate_object_counts docs !!! k = count_class k (unwind_stage docs)).
  { intros k. subst docs. unfold main.
    destruct (process_video_stored (__init__ cfg yolo server) (VIDEO_SOURCE cfg) cap)
      as (new & -> & Hnew).
    assert (Hinit : stored (__init__ cfg yolo server) = []).
    { destruct (init_stored cfg yolo server) as [->| ->]; done. }
    rewrite Hinit, app_nil_l.
    destruct (fold_add_object_counts new ∅ k) as [Hsum _].
    unfold aggregate_object_counts. cbv zeta in Hsum.
    rewrite Hsum, lookup_total_empty, count_class_concat. simpl. clear Hsum.
    induction Hnew as [|doc rest Hdoc _ IH]; [done|]. simpl.
    rewrite IH. f_equal. by eapply persisted_from_tallied. }
  split; [apply Hall|].
  intros row Hrow. rewrite Hall.
  unfold aggregate, sort_stage, select_events in Hrow. simpl in Hrow.
  rewrite merge_sort_Permutation in Hrow.
  unfold group_stage in Hrow. apply list_elem_of_fmap in Hrow as (k & -> & _).
  unfold group_row, group_members, count_class. simpl. by rewrite length_fmap.
Qed.

Lemma count_views_agree_witness :
  let docs := stored (main (sample_config 1 []) coco (empty_server []) sample_capture).1 in
  aggregate_object_counts docs !!! "car" = count_class "car" (unwind_stage docs).
Proof.
  assert (Hempty : collection (empty_server []) = []) by reflexivity.
  exact (proj1 (count_views_agree (sample_config 1 []) coco (empty_server [])
                  sample_capture (sample_engine []) "car" Hempty)).
Defined.

Example count_views_sample :
  let docs := stored (main (sample_config 1 []) coco (empty_server []) sample_capture).1 in
  sorted_items (aggregate_object_counts docs) = [("car", 3%nat); ("person", 1%nat); ("zebra", 2%nat)] ∧
  (λ r, (_id r, total_count r)) <$> aggregate (sample_engine []) None docs
    = [("car", 3%nat); ("zebra", 2%nat); ("person", 1%nat)].
Proof. vm_compute. done. Qed.

(** ** queary_db.py: the reports against a server that answers *)

Lemma driver_call_answers (db : MongoDB) :
  faults db = [] → driver_call db = (false, db).
Proof. intros Hup. unfold driver_call. by rewrite Hup. Qed.

Lemma connect_answers (server : MongoDB) :
  faults server = [] → _connect server = (server, [], inr ()).
Proof.
  intros Hup. unfold _connect, _create_indexes. rewrite (driver_call_answers _ Hup).
  simpl. by rewrite !(driver_call_answers _ Hup).
Qed.

Lemma limit_stage_newest (limit : nat) (docs : list Document) :
  ∃ rest,
    limit_stage limit (sort_timestamp_desc docs) ++ rest ≡ₚ docs ∧
    StronglySorted newest_first (limit_stage limit (sort_timestamp_desc docs)) ∧
    (∀ d d', d ∈ limit_stage limit (sort_timestamp_desc docs) → d' ∈ rest →
             timestamp d' ≤ timestamp d) ∧
    (limit = 0%nat → rest = []) ∧
    (limit ≠ 0%nat →
     length (limit_stage limit (sort_timestamp_desc docs)) = Nat.min limit (length docs)).
Proof.
  destruct (sort_timestamp_desc_spec docs) as [Hperm Hsorted].
  set (sorted := sort_timestamp_desc docs) in *.
  exists (match limit with O => [] | _ => drop limit sorted end).
  assert (Hsplit : limit_stage limit sorted
                   ++ (match limit with O => [] | _ => drop limit sorted end) = sorted).
  { unfold limit_stage. destruct limit; [apply app_nil_r|apply take_drop]. }
  split; [by rewrite Hsplit|].
  rewrite <- Hsplit in Hsorted.
  apply StronglySorted_app in Hsorted as (Hcross & Hfound & _).
  split; [done|]. split; [|split].
  - intros d d' Hd Hd'. by apply (Hcross d d').
  - by intros ->.
  - intros Hlimit. unfold limit_stage. destruct limit; [done|].
    rewrite length_take. f_equal. by rewrite Hperm.
Qed.




Example time_range_report_sample :
  (λ r, match r with
        | inr (Some (total, counts)) => Some (total, sorted_items counts)
        | _ => None
        end) (display_detections_by_time_range statistics_server 3000 1).2
  = Some (3%nat, [("apple", 1%nat); ("car", 3%nat); ("zebra", 1%nat)]).
Proof. vm_compute. reflexivity. Qed.

(** X11. Against a server that answers, the list of recent detections
    holds, newest first, the [min limit n] most recent of the [n] stored
    events when [limit > 0], and all of them when [limit = 0]; it is the
    empty list ("No detections found") exactly when the store is empty. *)
Theorem recent_detections_report (server : MongoDB) (limit : nat) :
  faults server = [] →
  ∃ listed rest,
    display_recent_detections server limit = (server, [], inr listed) ∧
    listed ++ rest ≡ₚ collection server ∧
    StronglySorted newest_first listed ∧
    (∀ d d', d ∈ listed → d' ∈ rest → timestamp d' ≤ timestamp d) ∧
    (limit = 0%nat → rest = []) ∧
    (limit ≠ 0%nat → length listed = Nat.min limit (length (collection server))) ∧
    (listed = [] ↔ collection server = []).
Proof.
  intros Hup. unfold display_recent_detections.
  rewrite (connect_answers _ Hup), (driver_call_answers _ Hup).
  destruct (limit_stage_newest limit (collection server))
    as (rest & Hperm & Hsorted & Hcross & Hall & Hlen).
  eexists _, rest. split; [reflexivity|].
  split; [done|]. split; [done|]. split; [done|]. split; [done|]. split; [done|].
  split.
  - intros Hnil. rewrite Hnil in *. simpl in Hperm.
    destruct limit as [|n].
    + rewrite (Hall eq_refl) in Hperm. by apply Permutation_nil_l in Hperm.
    + specialize (Hlen ltac:(done)). simpl in Hlen.
      destruct (collection server); [done|]. simpl in Hlen. lia.
  - intros Hempty. rewrite Hempty. by destruct limit.
Qed.

Lemma recent_detections_report_witness :
  ∃ listed rest : list Document,
    display_recent_detections aged_server 2 = (aged_server, [], inr listed) ∧
    length listed = 2%nat ∧
    (∀ d d', d ∈ listed → d' ∈ rest → timestamp d' ≤ timestamp d).
Proof.
  assert (Hup : faults aged_server = []) by reflexivity.
  destruct (recent_detections_report aged_server 2 Hup)
    as (listed & rest & Hrun & _ & _ & Hcross & _ & Hlen & _).
  exists listed, rest. split; [exact Hrun|]. split; [|exact Hcross].
  rewrite Hlen; [reflexivity|discriminate].
Defined.

(** ** main.py: edges of the capture loop *)

(** X12. With [FRAME_SKIP = 0] and at least one frame to read, the run
    ends with [ZeroDivisionError] on the first frame: the raw counter has
    been incremented once, nothing is processed, counted or stored, and
    the summary is still printed. *)
Theorem zero_skip_raises (self : ObjectDetector) (source : string) (cap : VideoCapture) :
  FRAME_SKIP (config self) = 0 →
  isOpened cap = true →
  frames cap ≠ [] →
  (process_video self source cap).2 = Some ZeroDivisionError ∧
  frame_count (process_video self source cap).1 = frame_count self + 1 ∧
  processed_frames (process_video self source cap).1 = processed_frames self ∧
  class_counts (process_video self source cap).1 = class_counts self ∧
  db (process_video self source cap).1 = db self ∧
  stdout (process_video self source cap).1
    = stdout self ++
      [VideoHeader source 0 (CONFIDENCE_THRESHOLD (config self));
       DetectionSummary (frame_count self + 1) (processed_frames self)
                        (sorted_items (class_counts self))].
Proof.
  intros Hzero Hopen Hframes. unfold process_video. rewrite Hopen, Hzero.
  destruct (frames cap) as [|frame rest]; [done|]. cbn [capture_loop].
  set (self0 := print self _).
  destruct (loop_body_cases source self0 frame)
    as [[_ ->]|[(HN & _)|(HN & _)]]; [|done|done].
  simpl. rewrite <- app_assoc. done.
Qed.

Lemma zero_skip_raises_witness :
  (process_video (__init__ (sample_config 0 []) coco (empty_server []))
                 "sample.mp4" sample_capture).2 = Some ZeroDivisionError.
Proof.
  assert (Hzero : FRAME_SKIP (config (__init__ (sample_config 0 []) coco (empty_server [])))
                  = 0) by reflexivity.
  assert (Hopen : isOpened sample_capture = true) by reflexivity.
  assert (Hframes : frames sample_capture ≠ []) by discriminate.
  exact (proj1 (zero_skip_raises _ "sample.mp4" sample_capture Hzero Hopen Hframes)).
Defined.

Lemma processed_log_without_insert_errors (out : list Output) :
  processed_log (without_insert_errors out) = processed_log out.
Proof.
  unfold processed_log, without_insert_errors.
  induction out as [|line rest IH]; [done|].
  rewrite filter_cons.
  destruct line; simpl; first [exact IH | f_equal; exact IH].
Qed.

Lemma gate_abs (x N : Z) : N ≠ 0 → x `mod` N = 0 ↔ x `mod` Z.abs N = 0.
Proof.
  intros HN. rewrite !Z.mod_divide by lia. symmetry. apply Z.divide_abs_l.
Qed.

Lemma cadence_step_abs (source : string) (self : ObjectDetector) (frame : Frame) :
  FRAME_SKIP (config self) ≠ 0 →
  cadence_ok (Z.abs (FRAME_SKIP (config self))) self →
  cadence_ok (Z.abs (FRAME_SKIP (config self))) (loop_body source self frame).1.
Proof.
  intros HN (Hraw & Hproc & Hlog). unfold cadence_ok.
  assert (Habs : 1 ≤ Z.abs (FRAME_SKIP (config self))) by lia.
  destruct (loop_body_cases source self frame)
    as [[Hzero _]|[(_ & Hmod & ->)|(_ & Hmod & _)]]; [done| |].
  - simpl. rewrite (gate_abs _ _ HN) in Hmod.
    rewrite (cadence_arith_skip _ _ Habs Hraw Hmod). split; [lia|done].
  - destruct (loop_body_processed source self frame HN Hmod)
      as (_ & _ & _ & Hf & Hp & _ & Hout).
    rewrite (gate_abs _ _ HN) in Hmod.
    destruct (cadence_arith_hit _ _ Habs Hraw Hmod) as (Hdiv & Hmul & Hq).
    rewrite Hf, Hp, Hdiv.
    split; [lia|]. split; [lia|].
    rewrite <- processed_log_without_insert_errors, Hout.
    rewrite processed_log_app, processed_log_without_insert_errors, Hlog.
    rewrite (seqZ_app 1 (frame_count self `div` Z.abs (FRAME_SKIP (config self))) 1) by lia.
    rewrite fmap_app. f_equal.
    destruct (DISPLAY_VIDEO (config self) && key_q frame); simpl;
      rewrite Hproc; do 2 f_equal; lia.
Qed.

(** X13. A negative skip interval acts as its absolute value: for any
    [FRAME_SKIP ≠ 0] and a detector started by [__init__], the run does
    not raise, the processed counter is the raw counter divided by
    [|FRAME_SKIP|], and the frames processed are those whose raw index is
    a multiple of [|FRAME_SKIP|]. *)
Theorem negative_skip_is_absolute (cfg : Config) (yolo : YOLO) (server : MongoDB)
    (source : string) (cap : VideoCapture) :
  FRAME_SKIP cfg ≠ 0 →
  let N := Z.abs (FRAME_SKIP cfg) in
  let run := process_video (__init__ cfg yolo server) source cap in
  run.2 = None ∧
  processed_frames run.1 = frame_count run.1 `div` N ∧
  processed_log (stdout run.1)
    = (λ k, (k * N, k)) <$> seqZ 1 (frame_count run.1 `div` N).
Proof.
  intros HN N run.
  destruct (init_fields cfg yolo server) as (Hcfg & _ & _ & Hraw0 & Hproc0 & Hlog0 & _).
  set (self := __init__ cfg yolo server) in *.
  assert (Hok : cadence_ok N run.1 ∧ config run.1 = cfg).
  { apply (process_video_preserves (λ s, cadence_ok N s ∧ config s = cfg)).
    - intros s lines Hlines [? ?]. split; [|done]. by apply cadence_ok_print.
    - intros s frame [Hs Hc]. split.
      + subst N. rewrite <- Hc in *. by apply cadence_step_abs.
      + rewrite <- Hc. apply loop_body_fields.
    - split; [|done]. unfold cadence_ok. rewrite Hraw0, Hproc0, Hlog0. done. }
  destruct Hok as [(_ & Hproc & Hlog) _].
  assert (Hskip : FRAME_SKIP (config self) ≠ 0) by (by rewrite Hcfg).
  destruct (process_video_result self source cap Hskip) as (Hnone & _).
  done.
Qed.

Lemma negative_skip_is_absolute_witness :
  let run := process_video (__init__ (sample_config (-2) []) coco (empty_server []))
                           "sample.mp4" sample_capture in
  run.2 = None ∧
  processed_frames run.1 = frame_count run.1 `div` 2 ∧
  processed_log (stdout run.1) = (λ k, (k * 2, k)) <$> seqZ 1 (frame_count run.1 `div` 2).
Proof.
  assert (HN : FRAME_SKIP (sample_config (-2) []) ≠ 0) by (vm_compute; discriminate).
  exact (negative_skip_is_absolute (sample_config (-2) []) coco (empty_server [])
           "sample.mp4" sample_capture HN).
Defined.

Example negative_skip_sample :
  let run := process_video (__init__ (sample_config (-2) []) coco (empty_server []))
                           "sample.mp4" sample_capture in
  processed_log (stdout run.1) = [(2, 1); (4, 2)].
Proof. vm_compute. reflexivity. Qed.

Lemma capture_loop_app (source : string) (before rest : list Frame) (self : ObjectDetector) :
  FRAME_SKIP (config self) ≠ 0 →
  DISPLAY_VIDEO (config self) = false ∨ Forall (λ f, key_q f = false) before →
  capture_loop source self (before ++ rest)
  = capture_loop source (capture_loop source self before).1 rest.
Proof.
  revert self. induction before as [|frame before' IH]; intros self HN Hquiet; [done|].
  cbn [capture_loop app].
  destruct (loop_body_fields source self frame) as (Hcfg & _ & _ & _).
  destruct (loop_body_flow source self frame HN) as [_ Hcont].
  assert (Hflow : (loop_body source self frame).2 = Continue).
  { apply Hcont. destruct Hquiet as [?|Hkeys]; [by left|right]. by inversion Hkeys. }
  destruct (loop_body source self frame) as [self' flow]; cbn [fst snd] in *. subst flow.
  apply IH; rewrite Hcfg; [done|].
  destruct Hquiet as [?|Hkeys]; [by left|right]. by inversion Hkeys.
Qed.

(** X14. With the preview window on, pressing ['q'] on a processed frame
    stops the loop after that frame has been handled in full: its tallies
    are folded into the running counters, the frames after it are never
    read, the raw counter stops at its index, and the last line printed
    by the loop is the stop notice. *)
Theorem quit_key_stops_after_frame (source : string) (self : ObjectDetector)
    (before : list Frame) (frame : Frame) (after : list Frame) :
  FRAME_SKIP (config self) ≠ 0 →
  DISPLAY_VIDEO (config self) = true →
  Forall (λ f, key_q f = false) before →
  key_q frame = true →
  (frame_count self + Z.of_nat (length before) + 1) `mod` FRAME_SKIP (config self) = 0 →
  let reached := (capture_loop source self before).1 in
  let run := capture_loop source self (before ++ frame :: after) in
  run = capture_loop source self (before ++ [frame]) ∧
  run.2 = None ∧
  frame_count run.1 = frame_count self + Z.of_nat (length before) + 1 ∧
  class_counts run.1
    = update_total_counts (class_counts reached)
        (collect_detections (config self) (model self) (results frame)).1 ∧
  last (stdout run.1) = Some StoppingDetection.
Proof.
  intros HN Hdisplay Hkeys Hkey Hmod reached run.
  assert (Hreached : config reached = config self ∧ model reached = model self).
  { subst reached.
    apply (capture_loop_preserves (λ s, config s = config self ∧ model s = model self));
      [|done].
    intros s f [Hc Hm]. destruct (loop_body_fields source s f) as (-> & -> & _). done. }
  destruct Hreached as [Hcfg Hmodel].
  destruct (capture_loop_consumes source before self HN) as (_ & _ & Hcount).
  specialize (Hcount (or_intror Hkeys)). fold reached in Hcount.
  assert (HN' : FRAME_SKIP (config reached) ≠ 0) by (by rewrite Hcfg).
  assert (Hmod' : (frame_count reached + 1) `mod` FRAME_SKIP (config reached) = 0)
    by (by rewrite Hcfg, Hcount).
  destruct (loop_body_processed source reached frame HN' Hmod')
    as (_ & _ & Hcc & Hf & _ & Hflow & Hout).
  rewrite Hcfg, Hdisplay, Hkey in Hflow, Hout. simpl in Hflow, Hout.
  assert (Hstep : ∀ rest, capture_loop source self (before ++ frame :: rest)
                          = ((loop_body source reached frame).1, None)).
  { intros rest. rewrite (capture_loop_app source before _ self HN (or_intror Hkeys)).
    fold reached. cbn [capture_loop].
    destruct (loop_body source reached frame) as [s flow]; cbn [fst snd] in *.
    by subst flow. }
  subst run. rewrite !Hstep. cbn [fst snd].
  split; [done|]. split; [done|]. split; [by rewrite Hf, Hcount|].
  split; [by rewrite Hcc, Hcfg, Hmodel|].
  destruct (loop_body_cases source reached frame)
    as [[Hzero _]|[(_ & Hne & _)|(_ & _ & ->)]]; [done|done|].
  rewrite Hcfg, Hdisplay, Hkey. simpl. apply last_snoc.
Qed.

Lemma quit_key_stops_after_frame_witness :
  let cfg := {| MODEL_NAME := "yolov8m.pt"; VIDEO_SOURCE := "sample.mp4";
                FRAME_SKIP := 1; CONFIDENCE_THRESHOLD := q 1 2;
                TARGET_CLASSES := []; DISPLAY_VIDEO := true;
                ENABLE_MONGODB := false; MONGO_DB_NAME := "yolo_detections";
                MONGO_COLLECTION_NAME := "detections" |} in
  let self := __init__ cfg coco (empty_server []) in
  let pressed := {| results := [[sample_box 2 90]]; utcnow := 2000; key_q := true |} in
  let run := capture_loop "sample.mp4" self
               ([sample_frame [] 1000] ++ pressed :: sample_stream) in
  run.2 = None ∧ frame_count run.1 = 2 ∧ last (stdout run.1) = Some StoppingDetection.
Proof.
  intros cfg self pressed run.
  assert (HN : FRAME_SKIP (config self) ≠ 0) by (vm_compute; discriminate).
  assert (Hdisplay : DISPLAY_VIDEO (config self) = true) by reflexivity.
  assert (Hkeys : Forall (λ f, key_q f = false) [sample_frame [] 1000])
    by (repeat constructor).
  assert (Hkey : key_q pressed = true) by reflexivity.
  assert (Hmod : (frame_count self + Z.of_nat (length [sample_frame [] 1000]) + 1)
                   `mod` FRAME_SKIP (config self) = 0) by (vm_compute; reflexivity).
  destruct (quit_key_stops_after_frame "sample.mp4" self [sample_frame [] 1000] pressed
              sample_stream HN Hdisplay Hkeys Hkey Hmod)
    as (_ & Hnone & Hcount & _ & Hlast).
  exact (conj Hnone (conj Hcount Hlast)).
Defined.

(** ** main.py: numbering of the stored documents *)

Lemma capture_loop_numbered (source : string) (stream : list Frame) (self : ObjectDetector) :
  1 ≤ FRAME_SKIP (config self) →
  cadence_ok (FRAME_SKIP (config self)) self →
  ∃ new,
    stored (capture_loop source self stream).1 = stored self ++ new ∧
    Forall (λ doc,
      frame_count self < frame_number doc ≤ frame_count (capture_loop source self stream).1 ∧
      frame_number doc `mod` FRAME_SKIP (config self) = 0 ∧
      processed_frame_number doc = frame_number doc `div` FRAME_SKIP (config self) ∧
      video_source doc = source) new ∧
    StronglySorted (λ a b, frame_number a < frame_number b) new.
Proof.
  revert self. induction stream as [|frame rest IH]; intros self HN Hok;
    cbn [capture_loop].
  { exists []. rewrite app_nil_r. split; [done|]. split; constructor. }
  destruct (loop_body_fields source self frame) as (Hcfg & _ & Hraw & _).
  pose proof (loop_body_stored source self frame) as Hstep.
  pose proof (cadence_step source self frame HN Hok) as Hok'.
  destruct Hok as (Hraw0 & Hproc0 & _).
  assert (HN0 : FRAME_SKIP (config self) ≠ 0) by lia.
  destruct (loop_body source self frame) as [self' flow]; cbn [fst snd] in *.
  assert (Hfirst : ∃ new,
            stored self' = stored self ++ new ∧
            Forall (λ doc,
              frame_number doc = frame_count self + 1 ∧
              frame_number doc `mod` FRAME_SKIP (config self) = 0 ∧
              processed_frame_number doc = frame_number doc `div` FRAME_SKIP (config self) ∧
              video_source doc = source) new ∧
            (new = [] ∨ ∃ doc, new = [doc])).
  { destruct Hstep as [->|(doc & -> & Hdoc & Hfn & Hpn & Hmod)].
    - exists []. rewrite app_nil_r. split; [done|]. split; [constructor|by left].
    - exists [doc]. split; [done|]. split; [|right; by exists doc].
      constructor; [|constructor].
      destruct (cadence_arith_hit _ _ HN Hraw0 Hmod) as (Hdiv & _).
      destruct Hdoc as (f & _ & _ & _ & _ & _ & _ & Hsrc).
      rewrite Hfn, Hpn, Hdiv, Hproc0. done. }
  destruct Hfirst as (new1 & Hst1 & Hall1 & Hshape).
  assert (Hdone : ∃ new,
            stored self' = stored self ++ new ∧
            Forall (λ doc,
              frame_count self < frame_number doc ≤ frame_count self' ∧
              frame_number doc `mod` FRAME_SKIP (config self) = 0 ∧
              processed_frame_number doc = frame_number doc `div` FRAME_SKIP (config self) ∧
              video_source doc = source) new ∧
            StronglySorted (λ a b, frame_number a < frame_number b) new).
  { exists new1. split; [done|]. split.
    - eapply Forall_impl; [exact Hall1|]. intros doc (Hfn & ? & ? & ?).
      split; [lia|done].
    - destruct Hshape as [->|(doc & ->)]; repeat constructor. }
  destruct flow as [| |e]; [|done|done].
  rewrite <- Hcfg in HN, Hok'.
  destruct (IH self' HN Hok') as (new2 & Hst2 & Hall2 & Hsorted2).
  assert (HN' : FRAME_SKIP (config self') ≠ 0) by lia.
  destruct (capture_loop_consumes source rest self' HN') as (_ & Hle & _).
  rewrite Hcfg in *.
  exists (new1 ++ new2). rewrite Hst2, Hst1, app_assoc. split; [done|]. split.
  - apply Forall_app. split.
    + eapply Forall_impl; [exact Hall1|]. intros doc (Hfn & ? & ? & ?).
      split; [lia|done].
    + eapply Forall_impl; [exact Hall2|]. intros doc (Hfn & ? & ? & ?).
      split; [lia|done].
  - apply StronglySorted_app. split; [|split; [|done]].
    + intros a b Ha Hb.
      rewrite Forall_forall in Hall1, Hall2.
      destruct (Hall1 a Ha) as (Hfa & _). destruct (Hall2 b Hb) as (Hfb & _). lia.
    + destruct Hshape as [->|(doc & ->)]; repeat constructor.
Qed.

(** X15. In a run started by [__init__] with [FRAME_SKIP = N ≥ 1], every
    document the run stores carries a raw frame number between 1 and the
    final raw count that is a multiple of [N], the processed number
    [frame_number / N], and the source of the run; the documents are
    stored in strictly increasing order of frame number, hence of
    processed frame number. *)
Theorem stored_documents_numbering (cfg : Config) (yolo : YOLO) (server : MongoDB)
    (source : string) (cap : VideoCapture) :
  1 ≤ FRAME_SKIP cfg →
  let self := __init__ cfg yolo server in
  let run := process_video self source cap in
  ∃ new,
    stored run.1 = stored self ++ new ∧
    Forall (λ doc,
      1 ≤ frame_number doc ≤ frame_count run.1 ∧
      frame_number doc `mod` FRAME_SKIP cfg = 0 ∧
      processed_frame_number doc = frame_number doc `div` FRAME_SKIP cfg ∧
      video_source doc = source) new ∧
    StronglySorted (λ a b, frame_number a < frame_number b) new ∧
    StronglySorted (λ a b, processed_frame_number a < processed_frame_number b) new.
Proof.
  intros HN self run.
  destruct (init_fields cfg yolo server) as (Hcfg & _ & _ & Hraw0 & Hproc0 & Hlog0 & _).
  fold self in Hcfg, Hraw0, Hproc0, Hlog0.
  assert (Hmain : ∃ new,
    stored run.1 = stored self ++ new ∧
    Forall (λ doc,
      1 ≤ frame_number doc ≤ frame_count run.1 ∧
      frame_number doc `mod` FRAME_SKIP cfg = 0 ∧
      processed_frame_number doc = frame_number doc `div` FRAME_SKIP cfg ∧
      video_source doc = source) new ∧
    StronglySorted (λ a b, frame_number a < frame_number b) new).
  { unfold run, process_video. destruct (isOpened cap); cbn [fst].
    - set (start := print self _).
      assert (Hstart : cadence_ok (FRAME_SKIP (config start)) start).
      { unfold start. apply cadence_ok_print; [done|].
        unfold cadence_ok. rewrite Hcfg, Hraw0, Hproc0, Hlog0. done. }
      assert (HN' : 1 ≤ FRAME_SKIP (config start)) by (unfold start; simpl; by rewrite Hcfg).
      destruct (capture_loop_numbered source (frames cap) start HN' Hstart)
        as (new & Hst & Hall & Hsorted).
      destruct (capture_loop source start (frames cap)) as [self' raised].
      cbn [fst] in *. exists new. split; [done|]. split; [|done].
      eapply Forall_impl; [exact Hall|]. intros doc (Hfn & Hm & Hp & Hs).
      unfold start in *. simpl in *. rewrite Hcfg, Hraw0 in *. split; [lia|done].
    - exists []. rewrite app_nil_r. split; [done|]. split; constructor. }
  destruct Hmain as (new & Hst & Hall & Hsorted).
  exists new. split; [done|]. split; [done|]. split; [done|].
  clear Hst. induction Hsorted as [|a rest Hrest IH Ha]; [constructor|].
  apply Forall_cons in Hall as [Hdoc Hall'].
  constructor; [by apply IH|].
  rewrite Forall_forall in Ha, Hall'. apply Forall_forall. intros b Hb.
  destruct Hdoc as (_ & Hma & -> & _). destruct (Hall' b Hb) as (_ & Hmb & -> & _).
  specialize (Ha b Hb).
  pose proof (Z.div_mod (frame_number a) (FRAME_SKIP cfg) ltac:(lia)).
  pose proof (Z.div_mod (frame_number b) (FRAME_SKIP cfg) ltac:(lia)).
  nia.
Qed.

Lemma stored_documents_numbering_witness :
  let self := __init__ (sample_config 2 []) coco (empty_server []) in
  let run := process_video self "sample.mp4" sample_capture in
  ∃ new,
    stored run.1 = stored self ++ new ∧
    StronglySorted (λ a b, frame_number a < frame_number b) new.
Proof.
  assert (HN : 1 ≤ FRAME_SKIP (sample_config 2 [])) by (simpl; lia).
  destruct (stored_documents_numbering (sample_config 2 []) coco (empty_server [])
              "sample.mp4" sample_capture HN) as (new & Hst & _ & Hsorted & _).
  exact (ex_intro _ new (conj Hst Hsorted)).
Defined.

Example stored_documents_numbering_sample :
  (λ doc, (frame_number doc, processed_frame_number doc))
    <$> stored (process_video (__init__ (sample_config 2 []) coco (empty_server []))
                              "sample.mp4" gap_capture).1
  = [] ∧
  (λ doc, (frame_number doc, processed_frame_number doc))
    <$> stored (process_video (__init__ (sample_config 2 []) coco (empty_server []))
                              "sample.mp4" sample_capture).1
  = [(2, 1)].
Proof. vm_compute. done. Qed.

(** ** main.py: what the summary can show *)

(** X16. After a run started by [__init__], every class in the running
    counters has a count of at least 1, and when [TARGET_CLASSES] is not
    empty every such class is one of the target classes: the summary
    never lists a zero count nor a class outside the filter. *)
Theorem summary_counts_positive_and_filtered (cfg : Config) (yolo : YOLO)
    (server : MongoDB) (source : string) (cap : VideoCapture) (c : string) (n : nat) :
  class_counts (process_video (__init__ cfg yolo server) source cap).1 !! c = Some n →
  (1 ≤ n)%nat ∧ (TARGET_CLASSES cfg ≠ [] → c ∈ TARGET_CLASSES cfg).
Proof.
  destruct (init_fields cfg yolo server) as (Hcfg & _ & Hcc0 & _).
  set (self := __init__ cfg yolo server) in *.
  assert (Hinv : config (process_video self source cap).1 = cfg ∧
                 ∀ k m, class_counts (process_video self source cap).1 !! k = Some m →
                        (1 ≤ m)%nat ∧ (TARGET_CLASSES cfg ≠ [] → k ∈ TARGET_CLASSES cfg)).
  { apply (process_video_preserves
             (λ s, config s = cfg ∧
                   ∀ k m, class_counts s !! k = Some m →
                          (1 ≤ m)%nat ∧ (TARGET_CLASSES cfg ≠ [] → k ∈ TARGET_CLASSES cfg))).
    - by intros s lines _ [? ?].
    - intros s frame [Hc Hs].
      destruct (loop_body_fields source s frame) as (Hc' & _ & _ & Hcounts).
      split; [by rewrite Hc'|].
      destruct Hcounts as [->| ->]; [done|].
      intros k m. rewrite update_total_counts_lookup.
      destruct (collect_detections_spec (config s) (model s) (results frame))
        as (_ & Htally & _).
      destruct ((collect_detections (config s) (model s) (results frame)).1 !! k)
        as [count|] eqn:Hk; [|apply Hs].
      intros [= <-]. rewrite Htally in Hk. unfold tally_of in Hk.
      destruct (count_class k _) as [|count'] eqn:Hcount; [done|].
      injection Hk as <-. split; [lia|].
      intros Hnonempty. apply dec_stable. intros Hout.
      destruct (snapshot_excludes (config s) (model s) (results frame) k) as [Hnone _];
        [by rewrite Hc|by rewrite Hc|].
      rewrite Htally in Hnone. unfold tally_of in Hnone. by rewrite Hcount in Hnone.
    - split; [done|]. intros k m. by rewrite Hcc0, lookup_empty. }
  intros Hc. by apply Hinv.
Qed.

Lemma summary_counts_positive_and_filtered_witness :
  (1 ≤ 2)%nat ∧
  (TARGET_CLASSES (sample_config 1 ["car"]) ≠ [] → "car" ∈ TARGET_CLASSES (sample_config 1 ["car"])).
Proof.
  assert (Hc : class_counts
                 (process_video (__init__ (sample_config 1 ["car"]) coco (empty_server []))
                                "sample.mp4" sample_capture).1 !! "car" = Some 2%nat)
    by (vm_compute; reflexivity).
  exact (summary_counts_positive_and_filtered (sample_config 1 ["car"]) coco
           (empty_server []) "sample.mp4" sample_capture "car" 2 Hc).
Defined.

(** X17. The sorted item list printed by the per-frame line and by the
    summary holds exactly the entries of the counter dictionary, each
    class once, in ascending order of class name. *)
Theorem sorted_items_spec (counts : gmap string nat) :
  (∀ name count, (name, count) ∈ sorted_items counts ↔ counts !! name = Some count) ∧
  NoDup (sorted_items counts).*1 ∧
  length (sorted_items counts) = size counts ∧
  Sorted item_le (sorted_items counts).
Proof.
  unfold sorted_items.
  pose proof (merge_sort_Permutation item_le (map_to_list counts)) as Hperm.
  split_and!.
  - intros name count. rewrite Hperm. apply elem_of_map_to_list.
  - rewrite Hperm. apply NoDup_fst_map_to_list.
  - rewrite Hperm. apply length_map_to_list.
  - apply Sorted_merge_sort. apply _.
Qed.

(** ** database.py: connecting *)

(** X18. A failure to create the indexes is not fatal: when the store is
    enabled and the server answers the ping, [__init__] gets a handle on
    the store, with the stored documents untouched, whatever happens to
    the four index creations; at most one warning is printed, before the
    line announcing the connection. *)
Theorem index_failures_not_fatal (cfg : Config) (yolo : YOLO) (server : MongoDB) :
  ENABLE_MONGODB cfg = true →
  (driver_call server).1 = false →
  ∃ handle,
    db (__init__ cfg yolo server) = Some handle ∧
    collection handle = collection server ∧
    (stdout (__init__ cfg yolo server)
       = [LoadingModel (MODEL_NAME cfg);
          MongoConnected (MONGO_DB_NAME cfg) (MONGO_COLLECTION_NAME cfg)] ∨
     stdout (__init__ cfg yolo server)
       = [LoadingModel (MODEL_NAME cfg); IndexWarning;
          MongoConnected (MONGO_DB_NAME cfg) (MONGO_COLLECTION_NAME cfg)]).
Proof.
  intros Henabled Hup. unfold __init__. rewrite Henabled.
  pose proof (connect_collection server) as Hcoll.
  pose proof (connect_out server) as Hout.
  assert (Hok : (_connect server).2 = inr ()).
  { unfold _connect. destruct (driver_call server) as [failed db0]; simpl in Hup.
    subst failed. by destruct (_create_indexes db0). }
  destruct (_connect server) as [[handle warnings] result]; cbn [fst snd] in *.
  subst result. exists handle. split; [done|]. split; [done|].
  destruct Hout as [-> | ->]; [by left|by right].
Qed.

Lemma index_failures_not_fatal_witness :
  ∃ handle,
    db (__init__ (sample_config 1 []) coco (empty_server [false; true])) = Some handle ∧
    collection handle = [].
Proof.
  assert (Henabled : ENABLE_MONGODB (sample_config 1 []) = true) by reflexivity.
  assert (Hup : (driver_call (empty_server [false; true])).1 = false) by reflexivity.
  destruct (index_failures_not_fatal (sample_config 1 []) coco
              (empty_server [false; true]) Henabled Hup) as (handle & Hdb & Hcoll & _).
  exact (ex_intro _ handle (conj Hdb Hcoll)).
Defined.

Example index_failure_sample :
  stdout (__init__ (sample_config 1 []) coco (empty_server [false; true]))
  = [LoadingModel "yolov8m.pt"; IndexWarning;
     MongoConnected "yolo_detections" "detections"].
Proof. vm_compute. reflexivity. Qed.

(** ** database.py: more on the statistics by class *)

Lemma sum_list_with_zero {A} (l : list A) : sum_list_with (λ _, 0%nat) l = 0%nat.
Proof. induction l as [|x l IH]; [done|]. simpl. exact IH. Qed.

Lemma sum_list_with_plus {A} (f g : A → nat) (l : list A) :
  sum_list_with (λ x, (f x + g x)%nat) l
  = (sum_list_with f l + sum_list_with g l)%nat.
Proof. induction l as [|x l IH]; [done|]. simpl. rewrite IH. lia. Qed.

Lemma sum_list_with_pointwise {A} (f g : A → nat) (l : list A) :
  (∀ x, f x = g x) → sum_list_with f l = sum_list_with g l.
Proof. intros Hfg. induction l as [|x l IH]; [done|]. simpl. by rewrite Hfg, IH. Qed.

Lemma sum_indicator (name : string) (names : list string) :
  NoDup names → name ∈ names →
  sum_list_with (λ c, if decide (name = c) then 1%nat else 0%nat) names = 1%nat.
Proof.
  induction 1 as [|c cs Hc Hnodup IH]; intros Hin; [by apply elem_of_nil in Hin|].
  simpl. apply elem_of_cons in Hin as [->|Hin].
  - rewrite decide_True by done.
    replace (sum_list_with _ cs) with 0%nat; [done|].
    clear -Hc. induction cs as [|c' cs IH]; [done|]. simpl.
    apply not_elem_of_cons in Hc as [Hne Hc].
    rewrite decide_False by done. by apply IH.
  - rewrite decide_False by (intros ->; done). by rewrite IH.
Qed.

Lemma sum_count_classes (names : list string) (ds : list Detection) :
  NoDup names → Forall (λ d, class_name d ∈ names) ds →
  sum_list_with (λ c, count_class c ds) names = length ds.
Proof.
  intros Hnodup. induction 1 as [|d ds Hd _ IH].
  { apply sum_list_with_zero. }
  assert (Hcount : ∀ c, count_class c (d :: ds)
            = ((if decide (class_name d = c) then 1 else 0) + count_class c ds)%nat).
  { intros c. unfold count_class. rewrite filter_cons.
    by destruct (decide (class_name d = c)). }
  rewrite (sum_list_with_pointwise _ _ names Hcount).
  rewrite sum_list_with_plus, IH, sum_indicator by done. done.
Qed.

(** X19. The [total_count]s of the rows of the statistics by class add
    up to the number of detections of the selected events: every
    detection is counted in exactly one row. *)
Theorem statistics_counts_add_up (engine : Engine) (source : option string)
    (docs : list Document) :
  sum_list_with total_count (aggregate engine source docs)
  = length (unwind_stage (select_events source docs)).
Proof.
  unfold aggregate, sort_stage.
  set (ds := unwind_stage (select_events source docs)).
  rewrite merge_sort_Permutation. unfold group_stage.
  assert (Hrows : ∀ names, sum_list_with total_count (group_row engine ds <$> names)
                           = sum_list_with (λ c, count_class c ds) names).
  { intros names. induction names as [|c cs IH]; [done|].
    rewrite fmap_cons. simpl. rewrite IH. f_equal.
    unfold group_members, count_class. apply length_fmap. }
  rewrite Hrows. apply sum_count_classes; [apply NoDup_remove_dups|].
  apply Forall_forall. intros d Hd. apply elem_of_remove_dups.
  by apply list_elem_of_fmap_2.
Qed.

(** ** queary_db.py: the confirmed cleanup, end to end *)



(** ** database.py and queary_db.py: what the operations never do *)

(** X22. The read operations never change the stored documents, whether
    the server answers or not: connecting, the two [find] queries, the
    statistics by class and the three reports built on them leave the
    collection as it was. *)
Theorem queries_leave_store_unchanged (server : MongoDB) (engine : Engine)
    (source : string) (optional_source : option string) (limit : nat)
    (start_time end_time now : datetime) (hours : Z) :
  collection (_connect server).1.1 = collection server ∧
  collection (get_detections_by_source server source limit).1 = collection server ∧
  collection (get_detections_by_time_range server start_time end_time optional_source).1
    = collection server ∧
  collection (get_object_statistics server engine optional_source).1 = collection server ∧
  collection (display_recent_detections server limit).1.1 = collection server ∧
  collection (display_detections_by_time_range server now hours).1.1 = collection server ∧
  collection (display_object_statistics server engine optional_source).1.1
    = collection server.
Proof.
  assert (Hquery : ∀ db s e o,
            collection (get_detections_by_time_range db s e o).1 = collection db).
  { intros db s e o. unfold get_detections_by_time_range.
    pose proof (driver_call_collection db) as Hcoll.
    by destruct (driver_call db) as [[] db']. }
  assert (Hstats : ∀ db o, collection (get_object_statistics db engine o).1 = collection db).
  { intros db o. unfold get_object_statistics.
    pose proof (driver_call_collection db) as Hcoll.
    by destruct (driver_call db) as [[] db']. }
  pose proof (connect_collection server) as Hconn.
  split; [done|]. split; [|split; [apply Hquery|split; [apply Hstats|]]].
  - unfold get_detections_by_source.
    pose proof (driver_call_collection server) as Hcoll.
    by destruct (driver_call server) as [[] db'].
  - split; [|split].
    + unfold display_recent_detections.
      destruct (_connect server) as [[handle warnings] [e|[]]]; cbn [fst snd] in *; [done|].
      pose proof (driver_call_collection handle) as Hcoll.
      destruct (driver_call handle) as [[] handle']; cbn [fst snd] in *; congruence.
    + unfold display_detections_by_time_range.
      destruct (_connect server) as [[handle warnings] [e|[]]]; cbn [fst snd] in *; [done|].
      destruct (timedelta_hours hours) as [e|delta]; [done|].
      destruct (datetime_sub now delta) as [e|start]; [done|].
      specialize (Hquery handle start now None).
      destruct (get_detections_by_time_range handle start now None)
        as [handle' [e|[|d listed]]]; cbn [fst snd] in *; congruence.
    + unfold display_object_statistics.
      destruct (_connect server) as [[handle warnings] [e|[]]]; cbn [fst snd] in *; [done|].
      specialize (Hstats handle optional_source).
      destruct (get_object_statistics handle engine optional_source) as [handle' result];
        cbn [fst snd] in *; congruence.
Qed.



(** X24. Against a server that answers, the statistics report has no row
    ("No statistics available") exactly when the selected events hold no
    detection at all. *)
Theorem statistics_report_empty (server : MongoDB) (engine : Engine)
    (source : option string) :
  faults server = [] →
  ∃ rows,
    display_object_statistics server engine source = (server, [], inr rows) ∧
    (rows = [] ↔ unwind_stage (select_events source (collection server)) = []).
Proof.
  intros Hup. unfold display_object_statistics, get_object_statistics.
  rewrite (connect_answers _ Hup), (driver_call_answers _ Hup).
  eexists. split; [reflexivity|].
  unfold aggregate, sort_stage.
  set (ds := unwind_stage (select_events source (collection server))).
  pose proof (merge_sort_Permutation (count_desc_then_rank engine) (group_stage engine ds))
    as Hperm.
  split.
  - intros Hnil. rewrite Hnil in Hperm. apply Permutation_nil_l in Hperm.
    unfold group_stage in Hperm. symmetry in Hperm. apply fmap_nil_inv in Hperm.
    destruct ds as [|d ds']; [done|]. exfalso.
    assert (Hin : class_name d ∈ remove_dups (class_name <$> d :: ds')).
    { apply elem_of_remove_dups. rewrite fmap_cons. apply elem_of_cons. by left. }
    rewrite Hperm in Hin. by apply elem_of_nil in Hin.
  - intros Hnil. rewrite Hnil. reflexivity.
Qed.

Lemma statistics_report_empty_witness :
  ∃ rows, display_object_statistics statistics_server (sample_engine []) (Some "other.mp4")
          = (statistics_server, [], inr rows) ∧ rows = [].
Proof.
  assert (Hup : faults statistics_server = []) by reflexivity.
  destruct (statistics_report_empty statistics_server (sample_engine [])
              (Some "other.mp4") Hup)
    as (rows & Hrun & Hempty).
  exists rows. split; [exact Hrun|]. apply Hempty. vm_compute. reflexivity.
Defined.
